(** * The multi-prompt inference queue of [src/App.jsx]

    A shallow embedding of the coordination logic of the [App] component:
    the worker message handler, the sequential request queue
    ([processRequestQueue]), the capture trigger ([triggerInference]) and
    the user controls that act on them.

    React state cells ([useState]) and mutable refs ([useRef]) become the
    fields of one record [Core]; every handler is a function [Core -> Core].
    Messages handed to [worker.current.postMessage] are appended to the
    field [posted], oldest first, so that what was dispatched, and in which
    order, can be read off a state. *)

From Stdlib Require Import QArith.QArith_base.
From Stdlib Require Import Strings.Ascii.
From stdpp Require Import gmap list strings.

(** ** JavaScript strings

    A JavaScript string is a sequence of UTF-16 code units. *)

Abbreviation jsstring := (list N).

(** A literal of the source made of ASCII characters only. *)
Fixpoint str (s : string) : jsstring :=
  match s with
  | EmptyString => []
  | String a s' => N_of_ascii a :: str s'
  end.

Definition LF : N := 10%N.

(** ECMAScript [WhiteSpace] and [LineTerminator] code points, the ones
    [String.prototype.trim] strips. All of them lie in the basic
    multilingual plane, so each is one code unit. *)
Definition isWhiteSpace (c : N) : bool :=
  ((c =? 9) || (c =? 10) || (c =? 11) || (c =? 12) || (c =? 13) || (c =? 32)
   || (c =? 160) || (c =? 5760)
   || ((8192 <=? c) && (c <=? 8202))
   || (c =? 8232) || (c =? 8233) || (c =? 8239) || (c =? 8287)
   || (c =? 12288) || (c =? 65279))%N.

Fixpoint trimStart (s : jsstring) : jsstring :=
  match s with
  | [] => []
  | c :: s' => if isWhiteSpace c then trimStart s' else s
  end.

Definition trimEnd (s : jsstring) : jsstring := rev (trimStart (rev s)).

(** [s.trim()] *)
Definition trim (s : jsstring) : jsstring := trimEnd (trimStart s).

(** Truthiness of a string value: only the empty string is falsy. *)
Definition truthy (s : jsstring) : bool :=
  match s with [] => false | _ :: _ => true end.

(** Truthiness of a value that is either a string or [undefined]/[null]. *)
Definition truthyOpt (o : option jsstring) : bool :=
  match o with None => false | Some s => truthy s end.

(** [ToString] of a value that is either a string or [undefined], as the
    [+] operator applies it to its left operand in [prev[id] + output]. *)
Definition toStringOpt (o : option jsstring) : jsstring :=
  match o with None => str "undefined" | Some s => s end.

(** ** Data model *)

(** [status]: [null], ["loading"] or ["ready"]. *)
Inductive Status := Unloaded | Loading | Ready.

Inductive InputSource := Camera | File.

(** An entry of [prompts]. *)
Record Prompt := { id : N; text : jsstring; enabled : bool }.

(** One part of the [content] array of a chat message. *)
Inductive ContentPart :=
| ImagePart (image : jsstring)
| TextPart (text : jsstring).

Record ChatMessage := { role : jsstring; content : list ContentPart }.

(** A pending request, [{ id, message }]. *)
Record Request := { req_id : N; message : list ChatMessage }.

(** A download progress record as the worker reports it. [file] names
    the download; [progress] and [total] are [None] in a record that does
    not carry the property (reading it yields [undefined]). *)
Record ProgressItem := {
  file : jsstring;
  progress : option Q;
  total : option Q
}.

(** What the core can see of the [<video>] element: its [readyState] and
    the JPEG data URL that drawing the current frame on the canvas and
    calling [toDataURL('image/jpeg', 0.8)] yields. *)
Record VideoElement := { readyState : N; frameDataURL : jsstring }.

(** Messages posted to the worker. *)
Inductive Outbound :=
| PostCheck
| PostLoad
| PostGenerate (data : list ChatMessage) (id : N)
| PostInterrupt.

(** The [data] of a message event from the worker, by its [status] field.
    [MOther] is any status the [switch] has no case for. *)
Inductive WorkerData :=
| MLoading (data : jsstring)
| MInitiate (item : ProgressItem)
| MProgress (item : ProgressItem)
| MDone (file : jsstring)
| MReady
| MStart (id : N)
| MUpdate (id : N) (output : jsstring) (newTps : Q)
| MComplete (id : N)
| MError (data : jsstring)
| MOther.

(** The state cells and refs of [App]. [video] is [videoRef.current]
    together with [canvasRef.current]: both elements are rendered side by
    side, so they are present or absent together. The camera list, the
    selected camera and the media stream belong to the capture hardware and
    are left out: no handler below reads them. *)
Record Core := {
  status : Status;
  error : option jsstring;
  loadingMessage : jsstring;
  progressItems : list ProgressItem;
  video : option VideoElement;
  inputSource : InputSource;
  videoFileUrl : option jsstring;
  videoFramerate : Q;
  isAnalysisRunning : bool;
  prompts : list Prompt;
  outputs : gmap N (list N);
  tps : option Q;
  isWorkerBusy : bool;
  pendingRequests : list Request;
  posted : list Outbound
}.

(** Assignment to one cell; every other cell keeps its value. *)

Definition with_status (v : Status) (st : Core) : Core :=
  Build_Core v (error st) (loadingMessage st) (progressItems st) (video st)
    (inputSource st) (videoFileUrl st) (videoFramerate st)
    (isAnalysisRunning st) (prompts st) (outputs st) (tps st)
    (isWorkerBusy st) (pendingRequests st) (posted st).

Definition with_error (v : option jsstring) (st : Core) : Core :=
  Build_Core (status st) v (loadingMessage st) (progressItems st) (video st)
    (inputSource st) (videoFileUrl st) (videoFramerate st)
    (isAnalysisRunning st) (prompts st) (outputs st) (tps st)
    (isWorkerBusy st) (pendingRequests st) (posted st).

Definition with_loadingMessage (v : jsstring) (st : Core) : Core :=
  Build_Core (status st) (error st) v (progressItems st) (video st)
    (inputSource st) (videoFileUrl st) (videoFramerate st)
    (isAnalysisRunning st) (prompts st) (outputs st) (tps st)
    (isWorkerBusy st) (pendingRequests st) (posted st).

Definition with_progressItems (v : list ProgressItem) (st : Core) : Core :=
  Build_Core (status st) (error st) (loadingMessage st) v (video st)
    (inputSource st) (videoFileUrl st) (videoFramerate st)
    (isAnalysisRunning st) (prompts st) (outputs st) (tps st)
    (isWorkerBusy st) (pendingRequests st) (posted st).

Definition with_video (v : option VideoElement) (st : Core) : Core :=
  Build_Core (status st) (error st) (loadingMessage st) (progressItems st) v
    (inputSource st) (videoFileUrl st) (videoFramerate st)
    (isAnalysisRunning st) (prompts st) (outputs st) (tps st)
    (isWorkerBusy st) (pendingRequests st) (posted st).

Definition with_inputSource (v : InputSource) (st : Core) : Core :=
  Build_Core (status st) (error st) (loadingMessage st) (progressItems st)
    (video st) v (videoFileUrl st) (videoFramerate st)
    (isAnalysisRunning st) (prompts st) (outputs st) (tps st)
    (isWorkerBusy st) (pendingRequests st) (posted st).

Definition with_videoFileUrl (v : option jsstring) (st : Core) : Core :=
  Build_Core (status st) (error st) (loadingMessage st) (progressItems st)
    (video st) (inputSource st) v (videoFramerate st) (isAnalysisRunning st)
    (prompts st) (outputs st) (tps st) (isWorkerBusy st)
    (pendingRequests st) (posted st).

Definition with_videoFramerate (v : Q) (st : Core) : Core :=
  Build_Core (status st) (error st) (loadingMessage st) (progressItems st)
    (video st) (inputSource st) (videoFileUrl st) v (isAnalysisRunning st)
    (prompts st) (outputs st) (tps st) (isWorkerBusy st)
    (pendingRequests st) (posted st).

Definition with_isAnalysisRunning (v : bool) (st : Core) : Core :=
  Build_Core (status st) (error st) (loadingMessage st) (progressItems st)
    (video st) (inputSource st) (videoFileUrl st) (videoFramerate st) v
    (prompts st) (outputs st) (tps st) (isWorkerBusy st)
    (pendingRequests st) (posted st).

Definition with_prompts (v : list Prompt) (st : Core) : Core :=
  Build_Core (status st) (error st) (loadingMessage st) (progressItems st)
    (video st) (inputSource st) (videoFileUrl st) (videoFramerate st)
    (isAnalysisRunning st) v (outputs st) (tps st) (isWorkerBusy st)
    (pendingRequests st) (posted st).

Definition with_outputs (v : gmap N (list N)) (st : Core) : Core :=
  Build_Core (status st) (error st) (loadingMessage st) (progressItems st)
    (video st) (inputSource st) (videoFileUrl st) (videoFramerate st)
    (isAnalysisRunning st) (prompts st) v (tps st) (isWorkerBusy st)
    (pendingRequests st) (posted st).

Definition with_tps (v : option Q) (st : Core) : Core :=
  Build_Core (status st) (error st) (loadingMessage st) (progressItems st)
    (video st) (inputSource st) (videoFileUrl st) (videoFramerate st)
    (isAnalysisRunning st) (prompts st) (outputs st) v (isWorkerBusy st)
    (pendingRequests st) (posted st).

Definition with_isWorkerBusy (v : bool) (st : Core) : Core :=
  Build_Core (status st) (error st) (loadingMessage st) (progressItems st)
    (video st) (inputSource st) (videoFileUrl st) (videoFramerate st)
    (isAnalysisRunning st) (prompts st) (outputs st) (tps st) v
    (pendingRequests st) (posted st).

Definition with_pendingRequests (v : list Request) (st : Core) : Core :=
  Build_Core (status st) (error st) (loadingMessage st) (progressItems st)
    (video st) (inputSource st) (videoFileUrl st) (videoFramerate st)
    (isAnalysisRunning st) (prompts st) (outputs st) (tps st)
    (isWorkerBusy st) v (posted st).

Definition with_posted (v : list Outbound) (st : Core) : Core :=
  Build_Core (status st) (error st) (loadingMessage st) (progressItems st)
    (video st) (inputSource st) (videoFileUrl st) (videoFramerate st)
    (isAnalysisRunning st) (prompts st) (outputs st) (tps st)
    (isWorkerBusy st) (pendingRequests st) v.

(** ** Render closures

    [processRequestQueue], [triggerInference] and [toggleAnalysis] are
    created during a render and read the state cells [videoFramerate],
    [isAnalysisRunning] and [prompts] as they were in that render; refs
    ([isWorkerBusy], [pendingRequests], the worker, the video element) are
    read at call time. A [Render] holds the three captured values. *)
Record Render := {
  r_videoFramerate : Q;
  r_isAnalysisRunning : bool;
  r_prompts : list Prompt
}.

(** The closure of the latest render. *)
Definition render (st : Core) : Render :=
  {| r_videoFramerate := videoFramerate st;
     r_isAnalysisRunning := isAnalysisRunning st;
     r_prompts := prompts st |}.

(** ** Initial state *)

Definition initialPrompts : list Prompt :=
  [ {| id := 0; text := str "What is the person doing?"; enabled := true |};
    {| id := 1; text := []; enabled := true |} ].

Definition initialOutputs : gmap N (list N) :=
  <[1%N := []]> (<[0%N := []]> ∅).

(** The state once the component is mounted: the [useState]/[useRef]
    initial values, and the [check] message the mount effect posts. *)
Definition initialState : Core :=
  {| status := Unloaded; error := None; loadingMessage := [];
     progressItems := []; video := None; inputSource := Camera;
     videoFileUrl := None; videoFramerate := 0; isAnalysisRunning := false;
     prompts := initialPrompts; outputs := initialOutputs; tps := None;
     isWorkerBusy := false; pendingRequests := []; posted := [PostCheck] |}.

(** The closure of the first render. [onMessageReceived] is defined inside
    an effect whose dependency list is empty: the effect runs once, after
    the first render, and the listener it installs keeps calling that
    render's [processRequestQueue], which sees [videoFramerate = 0] and
    [isAnalysisRunning = false] whatever the state cells hold later. The
    refs it reads are shared by all renders. *)
Definition firstRender : Render := render initialState.

(** ** Capture and dispatch *)

(** [worker.current.postMessage(m)] *)
Definition postMessage (m : Outbound) (st : Core) : Core :=
  with_posted (posted st ++ [m]) st.

(** [captureFrame]: [null] without the elements or before the video has
    data for the current position ([readyState < 2]). *)
Definition captureFrame (st : Core) : option jsstring :=
  match video st with
  | None => None
  | Some v => if (readyState v <? 2)%N then None else Some (frameDataURL v)
  end.

(** The filter predicate [p => p.enabled && p.text.trim().length > 0]. *)
Definition eligible (p : Prompt) : bool :=
  enabled p && (0 <? length (trim (text p))).

(** The request built for one prompt; the text is sent untrimmed. *)
Definition requestOf (image : jsstring) (p : Prompt) : Request :=
  {| req_id := id p;
     message := [ {| role := str "user";
                     content := [ImagePart image; TextPart (text p)] |} ] |}.

(** [prompts.filter(...).map(...)] *)
Definition buildRequests (image : jsstring) (ps : list Prompt) : list Request :=
  List.map (requestOf image) (List.filter eligible ps).

(** The [generate] message of a request. *)
Definition generateOf (q : Request) : Outbound :=
  PostGenerate (message q) (req_id q).

(** The body of [processRequestQueue], with the [triggerInference] of its
    closure passed in. *)
Definition processRequestQueue_body
    (r : Render) (triggerInference : Core -> Core) (st : Core) : Core :=
  match pendingRequests st with
  | [] =>
      let st := with_isWorkerBusy false st in
      if Qeq_bool (r_videoFramerate r) (-1) && r_isAnalysisRunning r
      then triggerInference st
      else st
  | nextRequest :: rest =>
      let st := with_isWorkerBusy true st in
      let st := with_pendingRequests rest st in
      postMessage (generateOf nextRequest) st
  end.

(** The body of [triggerInference], with the [processRequestQueue] of its
    closure passed in. *)
Definition triggerInference_body
    (r : Render) (processRequestQueue : Core -> Core) (st : Core) : Core :=
  if isWorkerBusy st then st else
  match captureFrame st with
  | None => st
  | Some image =>
      if negb (truthy image) then st else
      let requests := buildRequests image (r_prompts r) in
      match requests with
      | [] => st
      | _ :: _ => processRequestQueue (with_pendingRequests requests st)
      end
  end.

(** The two callbacks call each other. [triggerInference] only calls
    [processRequestQueue] on a non-empty queue, where the latter returns
    without calling back, so the recursion is cut there;
    [triggerInference_eq] and [processRequestQueue_eq] below show that the
    pair satisfies the source's mutual equations. *)
Definition triggerInference (r : Render) (st : Core) : Core :=
  triggerInference_body r (processRequestQueue_body r (fun st' => st')) st.

Definition processRequestQueue (r : Render) (st : Core) : Core :=
  processRequestQueue_body r (triggerInference r) st.

(** ** The worker listeners *)

(** The separator written by the [start] case. *)
Definition separator : jsstring :=
  [LF; LF] ++ str "---------------" ++ [LF].

(** [{ ...item, ...e.data }]: a property that the event carries replaces
    the one of the row, a property it does not carry is kept from the
    row. *)
Definition spread {A} (old new : option A) : option A :=
  match new with Some _ => new | None => old end.

Definition mergeProgress (item data : ProgressItem) : ProgressItem :=
  {| file := file data;
     progress := spread (progress item) (progress data);
     total := spread (total item) (total data) |}.

Definition sameFile (a b : jsstring) : bool := bool_decide (a = b).

(** [onMessageReceived], for the listener created in render [r]. *)
Definition onMessageReceived (r : Render) (e : WorkerData) (st : Core) : Core :=
  match e with
  | MLoading data => with_loadingMessage data (with_status Loading st)
  | MInitiate item => with_progressItems (progressItems st ++ [item]) st
  | MProgress data =>
      with_progressItems
        (List.map (fun item => if sameFile (file item) (file data)
                               then mergeProgress item data else item)
                  (progressItems st)) st
  | MDone f =>
      with_progressItems
        (List.filter (fun item => negb (sameFile (file item) f))
                     (progressItems st)) st
  | MReady => with_status Ready st
  | MStart i =>
      let prev := outputs st !! i in
      with_outputs
        (<[i := if truthyOpt prev then toStringOpt prev ++ separator else []]>
           (outputs st)) st
  | MUpdate i output newTps =>
      let st := with_tps (Some newTps) st in
      with_outputs
        (<[i := toStringOpt (outputs st !! i) ++ output]> (outputs st)) st
  | MComplete _ => processRequestQueue r st
  | MError data =>
      let st := with_error (Some data) st in
      let st := with_isWorkerBusy false st in
      let st := with_isAnalysisRunning false st in
      with_pendingRequests [] st
  | MOther => st
  end.

(** [onErrorReceived], the listener of the worker's [error] event. *)
Definition onErrorReceived (st : Core) : Core :=
  with_isWorkerBusy false st.

(** ** User controls *)

(** [toggleAnalysis]; starting playback of the video is not modelled. *)
Definition toggleAnalysis (r : Render) (st : Core) : Core :=
  if r_isAnalysisRunning r then
    let st := with_isAnalysisRunning false st in
    let st := postMessage PostInterrupt st in
    with_pendingRequests [] st
  else with_isAnalysisRunning true st.

Definition updatePrompt (i : N) (newText : jsstring) (st : Core) : Core :=
  with_prompts
    (List.map (fun p => if (id p =? i)%N
                        then {| id := id p; text := newText;
                                enabled := enabled p |}
                        else p)
              (prompts st)) st.

Definition clearOutput (i : N) (st : Core) : Core :=
  with_outputs (<[i := []]> (outputs st)) st.

(** [handleFileUpload], given [e.target.files[0]] as an object URL. *)
Definition handleFileUpload (f : option jsstring) (st : Core) : Core :=
  match f with
  | None => st
  | Some url => with_isAnalysisRunning false (with_videoFileUrl (Some url) st)
  end.

(** ** Events

    What the event loop delivers to the component, one at a time. *)

Inductive UserAction :=
| ClickLoadModel
| ChangeInputSource (s : InputSource)
| UploadVideo (f : option jsstring)
| ChangeFramerate (fr : Q)
| ClickMainAction
| EditPrompt (i : N) (newText : jsstring)
| ClickClear (i : N).

Inductive WorkerEvent :=
| MessageEvent (e : WorkerData)
| ErrorEvent.

(** [AnalysisTick] is a call of [triggerInference] made by the analysis
    effect; [VideoChange] is anything that happens to the [<video>]
    element: it is mounted or removed, gets data, shows another frame. *)
Inductive Event :=
| FromWorker (w : WorkerEvent)
| FromUser (a : UserAction)
| AnalysisTick
| VideoChange (v : option VideoElement).

Definition isUnloaded (s : Status) : bool :=
  match s with Unloaded => true | _ => false end.

Definition isReady (s : Status) : bool :=
  match s with Ready => true | _ => false end.

Definition isFile (s : InputSource) : bool :=
  match s with File => true | Camera => false end.

(** The button that triggers or toggles the analysis is disabled for the
    file source as long as no file is chosen. Its other disabling
    condition, manual mode with the busy flag set, reads the ref during a
    render and may be out of date at the time of the click. It is not
    repeated here: with the flag set [triggerInference] drops the call
    itself, and with the flag clear the click is let through. *)
Definition mainActionDisabled (st : Core) : bool :=
  isFile (inputSource st) && negb (truthyOpt (videoFileUrl st)).

(** A control acts only while the panel that holds it is rendered: the
    load button for [status === null], every other control for
    [status === "ready"], the file picker for the file source. The
    callbacks are those of the latest render. *)
Definition userAction (a : UserAction) (st : Core) : Core :=
  match a with
  | ClickLoadModel =>
      if isUnloaded (status st)
      then with_status Loading (postMessage PostLoad st)
      else st
  | ChangeInputSource s =>
      if isReady (status st)
      then with_isAnalysisRunning false (with_inputSource s st)
      else st
  | UploadVideo f =>
      if isReady (status st) && isFile (inputSource st)
      then handleFileUpload f st
      else st
  | ChangeFramerate fr =>
      if isReady (status st) then with_videoFramerate fr st else st
  | ClickMainAction =>
      if isReady (status st) && negb (mainActionDisabled st) then
        if Qeq_bool (videoFramerate st) 0
        then triggerInference (render st) st
        else toggleAnalysis (render st) st
      else st
  | EditPrompt i newText =>
      if isReady (status st) then updatePrompt i newText st else st
  | ClickClear i =>
      if isReady (status st) then clearOutput i st else st
  end.

(** A call of [triggerInference] made by the analysis effect: a firing of
    the interval it installs for a positive frame rate, or the direct call
    it makes for the rate [-1]. The effect is re-run whenever
    [triggerInference] changes, so the callback is the latest render's. How
    often and when the effect fires is left open: a tick may come at any
    time while the loop runs. *)
Definition analysisTick (st : Core) : Core :=
  if negb (isAnalysisRunning st) || negb (isReady (status st)) then st
  else if negb (Qle_bool (videoFramerate st) 0)
       then triggerInference (render st) st
       else if Qeq_bool (videoFramerate st) (-1)
            then triggerInference (render st) st
            else st.

Definition workerEvent (w : WorkerEvent) (st : Core) : Core :=
  match w with
  | MessageEvent e => onMessageReceived firstRender e st
  | ErrorEvent => onErrorReceived st
  end.

Definition handle (e : Event) (st : Core) : Core :=
  match e with
  | FromWorker w => workerEvent w st
  | FromUser a => userAction a st
  | AnalysisTick => analysisTick st
  | VideoChange v => with_video v st
  end.

(** Events handled in order, first event first. *)
Definition run (evs : list Event) (st : Core) : Core :=
  fold_left (fun s e => handle e s) evs st.

Definition workerRun (ws : list WorkerEvent) (st : Core) : Core :=
  fold_left (fun s w => workerEvent w s) ws st.

(** ** Requests in flight

    [inFlight] counts, along a run, the [generate] messages posted since
    the worker last reported, where a report is any event on which the
    core takes the worker to be done: a [complete] message, whatever
    identifier it carries (the handler does not read it), an [error]
    message, or the worker's [error] event. These are the events that may
    clear the busy flag. *)

Definition isGenerate (m : Outbound) : bool :=
  match m with PostGenerate _ _ => true | _ => false end.

(** The messages [st'] has posted beyond those of [st]. *)
Definition newlyPosted (st st' : Core) : list Outbound :=
  drop (length (posted st)) (posted st').

Definition generatesPosted (st st' : Core) : nat :=
  length (List.filter isGenerate (newlyPosted st st')).

Definition reportsEnd (e : Event) : bool :=
  match e with
  | FromWorker (MessageEvent (MComplete _))
  | FromWorker (MessageEvent (MError _))
  | FromWorker ErrorEvent => true
  | _ => false
  end.

Record Sys := { core : Core; inFlight : nat }.

Definition sysStep (e : Event) (s : Sys) : Sys :=
  let st' := handle e (core s) in
  {| core := st';
     inFlight := (if reportsEnd e then Nat.pred (inFlight s) else inFlight s)
                 + generatesPosted (core s) st' |}.

Definition boot : Sys := {| core := initialState; inFlight := 0 |}.

Inductive reachable : Sys -> Prop :=
| reach_boot : reachable boot
| reach_step e s : reachable s -> reachable (sysStep e s).

Definition sysRun (evs : list Event) (s : Sys) : Sys :=
  fold_left (fun s e => sysStep e s) evs s.

(** ** The camera effect

    The effect of [App] that depends on [status], [inputSource] and
    [selectedCamera] acquires the camera through [getUserMedia] and keeps
    the stream in [streamRef]. [setupCamera] is an [async] function: it is
    suspended at each [await], and resumed by the browser when the promise
    settles. The calls in suspension are kept in the state, each with the
    values its closure captured. *)

Module Camera.

(** A stream handed out by [getUserMedia]: which one it is, and the
    [deviceId] that the settings of each of its video tracks report
    ([None] for [undefined]). *)
Record MediaStream := { streamId : N; videoTracks : list (option jsstring) }.

(** An entry of [enumerateDevices()]. *)
Record MediaDevice := {
  kind : jsstring;
  deviceId : jsstring;
  label : jsstring
}.

(** The dependency list of the effect. *)
Record Deps := {
  d_status : Status;
  d_inputSource : InputSource;
  d_selectedCamera : jsstring
}.

(** A call of [setupCamera] waiting for [getUserMedia], or for
    [enumerateDevices] with the stream it obtained; [d] holds the values
    of the render the effect ran in. *)
Inductive Suspended :=
| AwaitUserMedia (d : Deps)
| AwaitDevices (d : Deps) (stream : MediaStream).

(** [deps] are the three state cells; [live] are the streams with tracks
    that were not stopped, that is the cameras switched on; [hasCleanup]
    tells whether the last run of the effect returned its cleanup
    function. *)
Record Source := {
  deps : Deps;
  cameras : list MediaDevice;
  error : option jsstring;
  streamRef : option MediaStream;
  live : gset N;
  hasCleanup : bool;
  suspended : list Suspended
}.

#[local] Instance Status_eq_dec : EqDecision Status.
Proof. solve_decision. Defined.

#[local] Instance InputSource_eq_dec : EqDecision InputSource.
Proof. solve_decision. Defined.

#[local] Instance Deps_eq_dec : EqDecision Deps.
Proof. solve_decision. Defined.

Definition with_deps (v : Deps) (st : Source) : Source :=
  Build_Source v (cameras st) (error st) (streamRef st) (live st)
    (hasCleanup st) (suspended st).

Definition with_cameras (v : list MediaDevice) (st : Source) : Source :=
  Build_Source (deps st) v (error st) (streamRef st) (live st)
    (hasCleanup st) (suspended st).

Definition with_error (v : option jsstring) (st : Source) : Source :=
  Build_Source (deps st) (cameras st) v (streamRef st) (live st)
    (hasCleanup st) (suspended st).

Definition with_streamRef (v : option MediaStream) (st : Source) : Source :=
  Build_Source (deps st) (cameras st) (error st) v (live st)
    (hasCleanup st) (suspended st).

Definition with_live (v : gset N) (st : Source) : Source :=
  Build_Source (deps st) (cameras st) (error st) (streamRef st) v
    (hasCleanup st) (suspended st).

Definition with_hasCleanup (v : bool) (st : Source) : Source :=
  Build_Source (deps st) (cameras st) (error st) (streamRef st) (live st)
    v (suspended st).

Definition with_suspended (v : list Suspended) (st : Source) : Source :=
  Build_Source (deps st) (cameras st) (error st) (streamRef st) (live st)
    (hasCleanup st) v.

(** [if (streamRef.current) { ...getTracks().forEach(track => track.stop());
    streamRef.current = null; }], the block of the effect's early return
    and of its cleanup function. *)
Definition releaseStream (st : Source) : Source :=
  match streamRef st with
  | None => st
  | Some stream =>
      with_streamRef None (with_live (live st ∖ {[streamId stream]}) st)
  end.

(** The negation of the guard
    [status !== 'ready' || inputSource !== 'camera']. *)
Definition cameraReady (d : Deps) : bool :=
  isReady (d_status d) && negb (isFile (d_inputSource d)).

(** One run of the effect: the early return, or [setupCamera()] up to its
    first [await]. *)
Definition effectBody (st : Source) : Source :=
  if negb (cameraReady (deps st))
  then with_hasCleanup false (releaseStream st)
  else with_hasCleanup true
         (with_suspended (suspended st ++ [AwaitUserMedia (deps st)]) st).

(** A state cell of the dependency list is set. A value equal to the
    present one changes nothing; otherwise the component renders again,
    the cleanup function of the previous run is called if there is one,
    and the effect runs with the new values. *)
Definition changeDeps (d : Deps) (st : Source) : Source :=
  if bool_decide (d = deps st) then st
  else
    let st := if hasCleanup st then releaseStream st else st in
    effectBody (with_deps d st).

Definition setSelectedCamera (v : jsstring) (st : Source) : Source :=
  changeDeps {| d_status := d_status (deps st);
                d_inputSource := d_inputSource (deps st);
                d_selectedCamera := v |} st.

(** [setupCamera] from the first [await] to the second. *)
Definition afterUserMedia (stream : MediaStream) (st : Source) : Source :=
  with_streamRef (Some stream) (with_live ({[streamId stream]} ∪ live st) st).

Definition isVideoInput (dev : MediaDevice) : bool :=
  bool_decide (kind dev = str "videoinput").

(** [setupCamera] after the second [await]. *)
Definition afterDevices (d : Deps) (stream : MediaStream)
    (devices : list MediaDevice) (st : Source) : Source :=
  let videoDevices := List.filter isVideoInput devices in
  let st := with_cameras videoDevices st in
  if negb (truthy (d_selectedCamera d)) then
    match videoDevices, videoTracks stream with
    | first :: _, activeDeviceId :: _ =>
        if truthyOpt activeDeviceId
        then setSelectedCamera (toStringOpt activeDeviceId) st
        else setSelectedCamera (deviceId first) st
    | _, _ => st
    end
  else st.

(** The [catch] block. *)
Definition failed (st : Source) : Source :=
  with_error
    (Some (str "Could not access webcam. Please ensure permissions are granted.")) st.

(** What reaches the effect: a state cell of its dependency list is set
    (by the worker listener for [status], by the two select controls for
    the others), or the promise awaited by the [k]-th suspended call
    settles. *)
Inductive Event :=
| SetStatus (s : Status)
| SetInputSource (src : InputSource)
| SelectCamera (dev : jsstring)
| UserMediaResolved (k : nat) (stream : MediaStream)
| UserMediaRejected (k : nat)
| DevicesResolved (k : nat) (devices : list MediaDevice)
| DevicesRejected (k : nat).

Definition handle (e : Event) (st : Source) : Source :=
  match e with
  | SetStatus s =>
      changeDeps {| d_status := s; d_inputSource := d_inputSource (deps st);
                    d_selectedCamera := d_selectedCamera (deps st) |} st
  | SetInputSource src =>
      changeDeps {| d_status := d_status (deps st); d_inputSource := src;
                    d_selectedCamera := d_selectedCamera (deps st) |} st
  | SelectCamera dev => setSelectedCamera dev st
  | UserMediaResolved k stream =>
      match suspended st !! k with
      | Some (AwaitUserMedia d) =>
          afterUserMedia stream
            (with_suspended (<[k := AwaitDevices d stream]> (suspended st)) st)
      | _ => st
      end
  | UserMediaRejected k =>
      match suspended st !! k with
      | Some (AwaitUserMedia d) =>
          failed (with_suspended (delete k (suspended st)) st)
      | _ => st
      end
  | DevicesResolved k devices =>
      match suspended st !! k with
      | Some (AwaitDevices d stream) =>
          afterDevices d stream devices
            (with_suspended (delete k (suspended st)) st)
      | _ => st
      end
  | DevicesRejected k =>
      match suspended st !! k with
      | Some (AwaitDevices d stream) =>
          failed (with_suspended (delete k (suspended st)) st)
      | _ => st
      end
  end.

Definition run (evs : list Event) (st : Source) : Source :=
  fold_left (fun s e => handle e s) evs st.

(** The component once mounted: the first run of the effect, with
    [status === null], takes the early return. *)
Definition mounted : Source :=
  effectBody
    {| deps := {| d_status := Unloaded; d_inputSource := Camera;
                  d_selectedCamera := [] |};
       cameras := []; error := None; streamRef := None; live := ∅;
       hasCleanup := false; suspended := [] |}.

(** An event that sets a state cell while a call of [setupCamera] is
    still suspended. *)
Definition interrupts (e : Event) (st : Source) : bool :=
  match e with
  | SetStatus _ | SetInputSource _ | SelectCamera _ =>
      negb (bool_decide (suspended st = []))
  | _ => false
  end.

(** A run in which every call of [setupCamera] has finished before the
    next state cell is set. *)
Fixpoint settled (evs : list Event) (st : Source) : bool :=
  match evs with
  | [] => true
  | e :: evs' => negb (interrupts e st) && settled evs' (handle e st)
  end.

(** The cameras that are on, as far as [streamRef] accounts for them. *)
Definition held (st : Source) : gset N :=
  match streamRef st with
  | None => ∅
  | Some stream => {[streamId stream]}
  end.

End Camera.

(** ** Object URLs of uploaded videos

    [handleFileUpload] creates an object URL for the chosen file and
    revokes the one of the file chosen before. [liveUrls] are the URLs
    created and not revoked. *)

Module VideoFile.

Record Urls := { videoFileUrl : option jsstring; liveUrls : gset (list N) }.

(** [if (videoFileUrl) URL.revokeObjectURL(videoFileUrl)], for the value
    of [videoFileUrl] that the closure holds. *)
Definition revokeIfSet (closureUrl : option jsstring) (st : Urls) : Urls :=
  if truthyOpt closureUrl
  then {| videoFileUrl := videoFileUrl st;
          liveUrls := liveUrls st ∖ {[toStringOpt closureUrl]} |}
  else st.

(** [handleFileUpload]: [created] is what [URL.createObjectURL(file)]
    returns, [None] when no file was chosen. The function is made anew in
    every render, so the [videoFileUrl] it tests is the current one. *)
Definition handleFileUpload (created : option jsstring) (st : Urls) : Urls :=
  match created with
  | None => st
  | Some url =>
      let st := revokeIfSet (videoFileUrl st) st in
      {| videoFileUrl := Some url; liveUrls := {[url]} ∪ liveUrls st |}
  end.

(** The cleanup of the mount effect. Its dependency list is empty, so the
    [videoFileUrl] it tests is the one of the first render, [null]. *)
Definition unmountCleanup (st : Urls) : Urls := revokeIfSet None st.

Definition initial : Urls := {| videoFileUrl := None; liveUrls := ∅ |}.

Definition uploads (files : list (option jsstring)) (st : Urls) : Urls :=
  fold_left (fun s f => handleFileUpload f s) files st.

Definition current (st : Urls) : gset (list N) :=
  match videoFileUrl st with
  | None => ∅
  | Some url => {[url]}
  end.

End VideoFile.

(** ** Notions used in the statements *)

(** The state after the head of the queue has been sent: flag set, the
    other requests queued, one [generate] message more. *)
Definition dispatched (first : Request) (rest : list Request) (st : Core)
  : Core :=
  postMessage (generateOf first)
    (with_pendingRequests rest (with_isWorkerBusy true st)).

Definition singleFlight (s : Sys) : Prop :=
  inFlight s <= 1 /\ (isWorkerBusy (core s) = false -> inFlight s = 0).

(** How many [complete] messages a sequence of worker events delivers
    before its first [error] message. *)
Fixpoint completions (ws : list WorkerEvent) : nat :=
  match ws with
  | [] => 0
  | MessageEvent (MComplete _) :: ws' => S (completions ws')
  | MessageEvent (MError _) :: _ => 0
  | _ :: ws' => completions ws'
  end.

Definition generateId (m : Outbound) : option N :=
  match m with PostGenerate _ i => Some i | _ => None end.

(** The identifiers of the [generate] messages in a list of posts. *)
Definition dispatchedIds (ms : list Outbound) : list N := omap generateId ms.

(** The requests in flight in the narrow sense: a request is in flight
    from its [generate] message until the worker reports on that request,
    with a [complete] message that carries its identifier or with an
    [error] message. The worker's [error] event and a [complete] message
    with another identifier report on no request in flight. *)
Fixpoint removeFirst (i : N) (ids : list N) : list N :=
  match ids with
  | [] => []
  | j :: ids' => if (j =? i)%N then ids' else j :: removeFirst i ids'
  end.

Definition reportedOn (e : Event) (ids : list N) : list N :=
  match e with
  | FromWorker (MessageEvent (MComplete i)) => removeFirst i ids
  | FromWorker (MessageEvent (MError _)) => []
  | _ => ids
  end.

(** The identifiers in flight, oldest first, after the events [evs]
    handled from the state [st] with [ids] in flight. *)
Fixpoint awaited (evs : list Event) (st : Core) (ids : list N) : list N :=
  match evs with
  | [] => ids
  | e :: evs' =>
      let st' := handle e st in
      awaited evs' st' (reportedOn e ids ++ dispatchedIds (newlyPosted st st'))
  end.

(** The selection as the specification words it: going through the prompts
    in order, a prompt that is enabled and whose trimmed text is not empty
    yields one request; any other prompt yields none. *)
Inductive Selects (image : jsstring) : list Prompt -> list Request -> Prop :=
| sel_end : Selects image [] []
| sel_take p ps qs :
    enabled p = true -> trim (text p) <> [] ->
    Selects image ps qs -> Selects image (p :: ps) (requestOf image p :: qs)
| sel_skip p ps qs :
    enabled p = false \/ trim (text p) = [] ->
    Selects image ps qs -> Selects image (p :: ps) qs.

Definition rank (s : Status) : nat :=
  match s with Unloaded => 0 | Loading => 1 | Ready => 2 end.

Definition isLoadingMessage (e : Event) : bool :=
  match e with FromWorker (MessageEvent (MLoading _)) => true | _ => false end.

Definition isErrorEvent (e : Event) : bool :=
  match e with FromWorker ErrorEvent => true | _ => false end.

Definition idleMeansEmpty (st : Core) : Prop :=
  isWorkerBusy st = false -> pendingRequests st = [].

(** What one event does to the messages posted and to the queue. *)
Inductive Posting (e : Event) (st st' : Core) : Prop :=
| post_nothing :
    posted st' = posted st -> pendingRequests st' = pendingRequests st ->
    Posting e st st'
| post_load :
    e = FromUser ClickLoadModel -> status st = Unloaded ->
    posted st' = posted st ++ [PostLoad] ->
    pendingRequests st' = pendingRequests st ->
    Posting e st st'
| post_interrupt :
    e = FromUser ClickMainAction -> isAnalysisRunning st = true ->
    Qeq_bool (videoFramerate st) 0 = false ->
    posted st' = posted st ++ [PostInterrupt] -> pendingRequests st' = [] ->
    Posting e st st'
| post_discard data :
    e = FromWorker (MessageEvent (MError data)) ->
    posted st' = posted st -> pendingRequests st' = [] ->
    Posting e st st'
| post_capture image q qs :
    e = AnalysisTick \/ e = FromUser ClickMainAction ->
    isWorkerBusy st = false -> captureFrame st = Some image ->
    buildRequests image (prompts st) = q :: qs ->
    posted st' = posted st ++ [generateOf q] -> pendingRequests st' = qs ->
    isWorkerBusy st' = true ->
    Posting e st st'
| post_next i q qs :
    e = FromWorker (MessageEvent (MComplete i)) ->
    pendingRequests st = q :: qs ->
    posted st' = posted st ++ [generateOf q] -> pendingRequests st' = qs ->
    isWorkerBusy st' = true ->
    Posting e st st'.

(** The requests queued and the [generate] messages posted carry
    identifiers of prompts. *)
Definition knownIds (ids : list N) (st : Core) : Prop :=
  sublist (List.map req_id (pendingRequests st)) ids
  /\ Forall (fun i => In i ids) (dispatchedIds (posted st)).

Definition isLoad (m : Outbound) : bool :=
  match m with PostLoad => true | _ => false end.

Definition isCheck (m : Outbound) : bool :=
  match m with PostCheck => true | _ => false end.

Definition loadedOnce (st : Core) : Prop :=
  length (List.filter isCheck (posted st)) = 1
  /\ length (List.filter isLoad (posted st)) <= 1
  /\ (status st = Unloaded -> List.filter isLoad (posted st) = []).

(** An event that does not come from the user. *)
Definition isPassive (e : Event) : bool :=
  match e with FromUser _ => false | _ => true end.

Definition quiescent (st : Core) : Prop :=
  isAnalysisRunning st = false /\ pendingRequests st = [].

Definition isErrorMessage (w : WorkerEvent) : bool :=
  match w with MessageEvent (MError _) => true | _ => false end.

(** What holds between events of a settled run. *)
Definition orderly (st : Camera.Source) : Prop :=
  Camera.live st = Camera.held st
  /\ match Camera.suspended st with
     | [] => Camera.streamRef st <> None -> Camera.hasCleanup st = true
     | [Camera.AwaitUserMedia d] =>
         Camera.streamRef st = None /\ Camera.hasCleanup st = true
     | [Camera.AwaitDevices d stream] =>
         Camera.streamRef st = Some stream /\ Camera.hasCleanup st = true
     | _ => False
     end.

Definition nonEmptyUrl (f : option jsstring) : Prop :=
  match f with Some url => url <> [] | None => True end.

(** An event as a worker delivers it that answers request by request:
    not its [error] event, and a [complete] message only with the
    identifier of the one request in flight. *)
Definition wellReported (e : Event) (ids : list N) : bool :=
  match e with
  | FromWorker ErrorEvent => false
  | FromWorker (MessageEvent (MComplete i)) => bool_decide (ids = [i])
  | _ => true
  end.

(** A run made of such events only. *)
Fixpoint answering (evs : list Event) (st : Core) (ids : list N) : bool :=
  match evs with
  | [] => true
  | e :: evs' =>
      let st' := handle e st in
      wellReported e ids
      && answering evs' st'
           (reportedOn e ids ++ dispatchedIds (newlyPosted st st'))
  end.

Definition narrowFlight (st : Core) (ids : list N) : Prop :=
  length ids <= 1 /\ (isWorkerBusy st = false -> ids = []).

(** ** Sample runs *)

Definition sampleVideo : VideoElement :=
  {| readyState := 4; frameDataURL := str "data:image/jpeg;base64,/9j/4AAQ" |}.

(** Model loaded, camera delivering frames, [Analyze Frame] clicked once. *)
Definition oneShot : list Event :=
  [ FromUser ClickLoadModel;
    FromWorker (MessageEvent (MLoading (str "Loading model...")));
    FromWorker (MessageEvent MReady);
    VideoChange (Some sampleVideo);
    FromUser ClickMainAction ].

(** Model loaded, camera delivering frames, a second prompt typed in. *)
Definition twoPrompts : Core :=
  run [ FromUser ClickLoadModel;
        FromWorker (MessageEvent MReady);
        VideoChange (Some sampleVideo);
        FromUser (EditPrompt 1 (str "Count the people")) ] initialState.

(** [Analyze Frame] clicked, the worker's [error] event fires, [Analyze
    Frame] clicked again. No render happens in between, so the button is
    enabled throughout. *)
Definition analyzeAcrossErrorEvent : list Event :=
  oneShot ++ [ FromWorker ErrorEvent; FromUser ClickMainAction ].

(** Two prompts sent for one frame; the worker answers with a [complete]
    message that carries an identifier of no request. *)
Definition foreignComplete : list Event :=
  [ FromUser ClickLoadModel;
    FromWorker (MessageEvent MReady);
    VideoChange (Some sampleVideo);
    FromUser (EditPrompt 1 (str "Count the people"));
    FromUser ClickMainAction;
    FromWorker (MessageEvent (MComplete 99)) ].

(** [Analyze Frame] clicked, the request answered, [Analyze Frame]
    clicked again. *)
Definition answeredTwice : list Event :=
  oneShot ++ [ FromWorker (MessageEvent (MStart 0));
               FromWorker (MessageEvent (MUpdate 0 (str "Reading.") 21));
               FromWorker (MessageEvent (MComplete 0));
               FromUser ClickMainAction ].

Definition twoAnswers : list WorkerEvent :=
  [ MessageEvent (MStart 0); MessageEvent (MUpdate 0 (str "Reading.") 21);
    MessageEvent (MComplete 0);
    MessageEvent (MStart 1); MessageEvent (MUpdate 1 (str "Two.") 20);
    MessageEvent (MComplete 1) ].

(** Prompt 0 answered once. *)
Definition firstAnswer : Core :=
  workerRun [ MessageEvent (MStart 0);
              MessageEvent (MUpdate 0 (str "Reading.") 21);
              MessageEvent (MComplete 0) ] initialState.

(** Ready, then a session of one answered prompt. *)
Definition readySession : list Event :=
  [ VideoChange (Some sampleVideo); FromUser ClickMainAction;
    FromWorker (MessageEvent (MStart 0));
    FromWorker (MessageEvent (MComplete 0)); FromUser ClickLoadModel ].

(** The loop running at a fixed rate, stopped by the button. *)
Definition loopRunning : Core :=
  run [ FromUser ClickLoadModel; FromWorker (MessageEvent MReady);
        VideoChange (Some sampleVideo);
        FromUser (EditPrompt 1 (str "Count the people"));
        FromUser (ChangeFramerate 1); FromUser ClickMainAction; AnalysisTick ]
      initialState.

(** Max-speed mode selected and the loop started; the analysis effect
    makes its call of [triggerInference], the one eligible prompt is sent
    and answered. *)
Definition maxSpeedStart : list Event :=
  [ FromUser ClickLoadModel;
    FromWorker (MessageEvent (MLoading (str "Loading model...")));
    FromWorker (MessageEvent MReady);
    VideoChange (Some sampleVideo);
    FromUser (ChangeFramerate (-1));
    FromUser ClickMainAction;
    AnalysisTick;
    FromWorker (MessageEvent (MStart 0));
    FromWorker (MessageEvent (MUpdate 0 (str "Reading.") 21)) ].

Definition maxSpeedDrained : list Event :=
  maxSpeedStart ++ [ FromWorker (MessageEvent (MComplete 0)) ].

(** Two prompts sent for one frame; the worker's [error] event fires
    while the first is being answered. *)
Definition errorEventMidCapture : list Event :=
  [ FromUser ClickLoadModel;
    FromWorker (MessageEvent (MLoading (str "Loading model...")));
    FromWorker (MessageEvent MReady);
    VideoChange (Some sampleVideo);
    FromUser (EditPrompt 1 (str "Count the people"));
    FromUser ClickMainAction;
    FromWorker (MessageEvent (MStart 0));
    FromWorker ErrorEvent ].

Definition afterStop : list Event :=
  [ FromWorker (MessageEvent (MUpdate 0 (str "Read") 20));
    FromWorker (MessageEvent (MComplete 0)); AnalysisTick;
    VideoChange (Some sampleVideo); FromWorker ErrorEvent; AnalysisTick ].

Definition halfWay : ProgressItem :=
  {| file := str "model.onnx"; progress := Some 50%Q; total := None |}.

Definition modelFile : ProgressItem :=
  {| file := str "model.onnx"; progress := None; total := None |}.

Definition configFile : ProgressItem :=
  {| file := str "config.json"; progress := Some 100%Q; total := Some 100%Q |}.

Definition frontCamera : Camera.MediaStream :=
  {| Camera.streamId := 1; Camera.videoTracks := [Some (str "cam-front")] |}.

Definition frontCameraExact : Camera.MediaStream :=
  {| Camera.streamId := 2; Camera.videoTracks := [Some (str "cam-front")] |}.

Definition twoCameras : list Camera.MediaDevice :=
  [ {| Camera.kind := str "audioinput"; Camera.deviceId := str "mic";
       Camera.label := str "Microphone" |};
    {| Camera.kind := str "videoinput"; Camera.deviceId := str "cam-front";
       Camera.label := str "Front camera" |};
    {| Camera.kind := str "videoinput"; Camera.deviceId := str "cam-back";
       Camera.label := str "Back camera" |} ].

(** The model becomes ready, the camera is granted, the devices are
    listed, the camera is opened again for the device found, and the user
    switches to the file source. *)
Definition firstGrant : list Camera.Event :=
  [ Camera.SetStatus Loading; Camera.SetStatus Ready;
    Camera.UserMediaResolved 0 frontCamera;
    Camera.DevicesResolved 0 twoCameras;
    Camera.UserMediaResolved 0 frontCameraExact;
    Camera.DevicesResolved 0 twoCameras;
    Camera.SetInputSource File ].

(** The camera held for the device found at the first grant. *)
Definition cameraHeld : Camera.Source :=
  Camera.run [ Camera.SetStatus Ready;
               Camera.UserMediaResolved 0 frontCamera;
               Camera.DevicesResolved 0 twoCameras;
               Camera.UserMediaResolved 0 frontCameraExact;
               Camera.DevicesResolved 0 twoCameras ] Camera.mounted.

Definition backCamera : Camera.Deps :=
  {| Camera.d_status := Ready; Camera.d_inputSource := Camera;
     Camera.d_selectedCamera := str "cam-back" |}.

Definition blankPrompt : Prompt :=
  {| id := 1; text := [32; 9; 10; 160]%N; enabled := true |}.

Definition twoUploads : list (option jsstring) :=
  [ Some (str "blob:1"); None; Some (str "blob:2") ].

(** * Properties *)

(** Case analysis on every test a handler makes. *)
Ltac split_tests :=
  repeat match goal with
         | |- context [if ?b then _ else _] => destruct b
         | |- context [match ?o with Some _ => _ | None => _ end] => destruct o
         end.

(** ** The two callbacks *)

Section Callbacks.

Variable r : Render.

Lemma processRequestQueue_eq st :
  processRequestQueue r st = processRequestQueue_body r (triggerInference r) st.
Proof. reflexivity. Qed.

Lemma processRequestQueue_nonempty k next rest st :
  pendingRequests st = next :: rest ->
  processRequestQueue_body r k st
  = postMessage (generateOf next)
      (with_pendingRequests rest (with_isWorkerBusy true st)).
Proof. intros H. unfold processRequestQueue_body. rewrite H. reflexivity. Qed.

(** [triggerInference] calls the [processRequestQueue] of its closure. *)
Lemma triggerInference_eq st :
  triggerInference r st = triggerInference_body r (processRequestQueue r) st.
Proof.
  unfold triggerInference, triggerInference_body.
  destruct (isWorkerBusy st); [reflexivity|].
  destruct (captureFrame st) as [image|]; [|reflexivity].
  destruct (negb (truthy image)); [reflexivity|].
  destruct (buildRequests image (r_prompts r)) as [|q qs] eqn:E; [reflexivity|].
  rewrite processRequestQueue_eq.
  rewrite !(processRequestQueue_nonempty _ q qs); reflexivity.
Qed.

Lemma triggerInference_busy st :
  isWorkerBusy st = true -> triggerInference r st = st.
Proof.
  intros H. unfold triggerInference, triggerInference_body. rewrite H.
  reflexivity.
Qed.

(** A call either changes nothing or, from an idle state, captures a frame
    and dispatches the first of the requests built for it. *)
Lemma triggerInference_cases st :
  triggerInference r st = st
  \/ (isWorkerBusy st = false
      /\ exists image first rest,
           captureFrame st = Some image /\ truthy image = true
           /\ buildRequests image (r_prompts r) = first :: rest
           /\ triggerInference r st = dispatched first rest st).
Proof.
  unfold triggerInference, triggerInference_body.
  destruct (isWorkerBusy st) eqn:B; [left; reflexivity|].
  destruct (captureFrame st) as [image|]; [|left; reflexivity].
  destruct (truthy image) eqn:T; [|left; reflexivity]. cbn [negb].
  destruct (buildRequests image (r_prompts r)) as [|q qs] eqn:E;
    [left; reflexivity|].
  right. split; [reflexivity|]. exists image, q, qs.
  repeat split; try assumption.
Qed.

Lemma triggerInference_capture st image q qs :
  isWorkerBusy st = false -> captureFrame st = Some image ->
  truthy image = true -> buildRequests image (r_prompts r) = q :: qs ->
  triggerInference r st = dispatched q qs st.
Proof.
  intros B C T E. unfold triggerInference, triggerInference_body.
  rewrite B, C, T. cbn [negb]. rewrite E. reflexivity.
Qed.

Lemma triggerInference_nothing st image :
  captureFrame st = Some image -> buildRequests image (r_prompts r) = [] ->
  triggerInference r st = st.
Proof.
  intros C E. unfold triggerInference, triggerInference_body. rewrite C, E.
  destruct (isWorkerBusy st), (negb (truthy image)); reflexivity.
Qed.

(** What the capture path leaves alone. *)
Lemma triggerInference_frame st :
  outputs (triggerInference r st) = outputs st
  /\ status (triggerInference r st) = status st
  /\ isAnalysisRunning (triggerInference r st) = isAnalysisRunning st.
Proof.
  destruct (triggerInference_cases st)
    as [-> | (_ & image & q & qs & _ & _ & _ & ->)]; repeat split.
Qed.

End Callbacks.

(** ** Counting posted [generate] messages *)

Lemma generatesPosted_same st st' :
  posted st' = posted st -> generatesPosted st st' = 0.
Proof.
  intros H. unfold generatesPosted, newlyPosted. rewrite H.
  rewrite drop_all. reflexivity.
Qed.

Lemma generatesPosted_one st st' m :
  posted st' = posted st ++ [m] ->
  generatesPosted st st' = if isGenerate m then 1 else 0.
Proof.
  intros H. unfold generatesPosted, newlyPosted. rewrite H.
  rewrite drop_app_length. cbn. destruct (isGenerate m); reflexivity.
Qed.

(** The first render is in manual mode with the loop stopped, so the
    listener's [processRequestQueue] never reaches [triggerInference]. *)
Lemma processRequestQueue_firstRender st :
  processRequestQueue firstRender st
  = match pendingRequests st with
    | [] => with_isWorkerBusy false st
    | next :: rest => dispatched next rest st
    end.
Proof.
  unfold processRequestQueue, processRequestQueue_body.
  destruct (pendingRequests st); reflexivity.
Qed.

(** ** Single flight *)

Lemma singleFlight_quiet e s :
  reportsEnd e = false ->
  posted (handle e (core s)) = posted (core s)
  \/ (exists m, isGenerate m = false
                /\ posted (handle e (core s)) = posted (core s) ++ [m]) ->
  isWorkerBusy (handle e (core s)) = isWorkerBusy (core s) ->
  singleFlight s -> singleFlight (sysStep e s).
Proof.
  intros He Hp Hb [Hle Hz]. unfold singleFlight, sysStep. cbn [core inFlight].
  rewrite He, Hb.
  assert (generatesPosted (core s) (handle e (core s)) = 0) as ->.
  { destruct Hp as [Hp | (m & Hm & Hp)].
    - apply generatesPosted_same, Hp.
    - rewrite (generatesPosted_one _ _ m Hp), Hm. reflexivity. }
  rewrite Nat.add_0_r. split; assumption.
Qed.

Lemma singleFlight_trigger e s r :
  reportsEnd e = false ->
  handle e (core s) = triggerInference r (core s) ->
  singleFlight s -> singleFlight (sysStep e s).
Proof.
  intros He Hh [Hle Hz]. unfold singleFlight, sysStep. cbn [core inFlight].
  rewrite He, Hh.
  destruct (triggerInference_cases r (core s))
    as [-> | (B & image & q & qs & _ & _ & _ & ->)].
  - rewrite generatesPosted_same by reflexivity. rewrite Nat.add_0_r.
    split; assumption.
  - rewrite (generatesPosted_one _ _ (generateOf q)) by reflexivity.
    rewrite (Hz B). cbn. split; [lia | discriminate].
Qed.

(** An event whose handler adds no [generate] message and leaves the busy
    flag alone. *)
Ltac quiet Hs :=
  apply singleFlight_quiet; [reflexivity | | | exact Hs];
  cbn [handle userAction]; unfold handleFileUpload, toggleAnalysis;
  split_tests;
  first [ left; reflexivity
        | reflexivity
        | right; exists PostLoad; split; reflexivity
        | right; exists PostInterrupt; split; reflexivity ].

Lemma singleFlight_end e s :
  reportsEnd e = true ->
  singleFlight s ->
  posted (handle e (core s)) = posted (core s)
  \/ (isWorkerBusy (handle e (core s)) = true
      /\ exists m, posted (handle e (core s)) = posted (core s) ++ [m]) ->
  singleFlight (sysStep e s).
Proof.
  intros He [Hle Hz] Hp. unfold singleFlight, sysStep. cbn [core inFlight].
  rewrite He. destruct Hp as [Hp | (Hb & m & Hp)].
  - rewrite (generatesPosted_same _ _ Hp). lia.
  - rewrite (generatesPosted_one _ _ m Hp), Hb.
    destruct (isGenerate m); split; first [lia | discriminate].
Qed.

Lemma singleFlight_step e s : singleFlight s -> singleFlight (sysStep e s).
Proof.
  intros Hs. destruct e as [[m|]|a| |v].
  - (* a message of the worker *)
    destruct m as [d|it|it|f| |i|i o t|i|d|]; try quiet Hs.
    + (* complete *)
      apply singleFlight_end; [reflexivity | exact Hs |].
      cbn [handle workerEvent onMessageReceived].
      rewrite processRequestQueue_firstRender.
      destruct (pendingRequests (core s)) as [|q qs]; [left; reflexivity|].
      right. split; [reflexivity|]. exists (generateOf q). reflexivity.
    + (* error *)
      apply singleFlight_end; [reflexivity | exact Hs | left; reflexivity].
  - (* the error event of the worker *)
    apply singleFlight_end; [reflexivity | exact Hs | left; reflexivity].
  - (* a user action *)
    destruct a as [|src|f|fr| |i t|i]; try quiet Hs.
    (* the main button *)
    destruct (isReady (status (core s)) && negb (mainActionDisabled (core s)))
      eqn:G; [|apply singleFlight_quiet; [reflexivity | | | exact Hs];
               cbn [handle userAction]; rewrite G;
               first [left; reflexivity | reflexivity]].
    destruct (Qeq_bool (videoFramerate (core s)) 0) eqn:F.
    + apply (singleFlight_trigger _ _ (render (core s)));
        [reflexivity | | exact Hs].
      cbn [handle userAction]. rewrite G, F. reflexivity.
    + apply singleFlight_quiet; [reflexivity | | | exact Hs];
        cbn [handle userAction]; rewrite G, F; unfold toggleAnalysis;
        split_tests;
        first [ left; reflexivity | reflexivity
              | right; exists PostInterrupt; split; reflexivity ].
  - (* a tick of the analysis loop *)
    destruct (negb (isAnalysisRunning (core s))
              || negb (isReady (status (core s)))) eqn:G;
      [apply singleFlight_quiet; [reflexivity | | | exact Hs];
       cbn [handle]; unfold analysisTick; rewrite G;
       first [left; reflexivity | reflexivity] |].
    destruct (negb (Qle_bool (videoFramerate (core s)) 0)
              || Qeq_bool (videoFramerate (core s)) (-1)) eqn:F.
    + apply (singleFlight_trigger _ _ (render (core s)));
        [reflexivity | | exact Hs].
      cbn [handle]. unfold analysisTick. rewrite G.
      destruct (negb (Qle_bool (videoFramerate (core s)) 0)); [reflexivity|].
      cbn in F. rewrite F. reflexivity.
    + apply orb_false_iff in F as [F F'].
      apply singleFlight_quiet; [reflexivity | | | exact Hs];
        cbn [handle]; unfold analysisTick; rewrite G, F, F';
        first [left; reflexivity | reflexivity].
  - (* the video element *)
    quiet Hs.
Qed.

Lemma reachable_singleFlight s : reachable s -> singleFlight s.
Proof.
  induction 1 as [|e s _ IH].
  - split; [cbn; lia | reflexivity].
  - apply singleFlight_step, IH.
Qed.

Lemma reachable_sysRun evs s : reachable s -> reachable (sysRun evs s).
Proof.
  revert s. induction evs as [|e evs IH]; intros s Hs; [exact Hs|].
  cbn. apply IH, reach_step, Hs.
Qed.

(** The claim of C1 fails when a request counts as in flight until the
    worker reports on that very request. After the worker's [error] event
    the busy flag is clear, and a second click on [Analyze Frame] posts
    the request of prompt 0 again while the first was reported neither
    complete nor failed; after a [complete] message with a foreign
    identifier the request of prompt 1 is posted while that of prompt 0 is
    still awaited. In both runs two requests are in flight. *)
Lemma C1_counterexample :
  dispatchedIds (posted (run analyzeAcrossErrorEvent initialState))
  = [0%N; 0%N]
  /\ awaited analyzeAcrossErrorEvent initialState [] = [0%N; 0%N]
  /\ awaited foreignComplete initialState [] = [0%N; 1%N]
  /\ ~ length (awaited analyzeAcrossErrorEvent initialState []) <= 1.
Proof.
  split; [vm_compute; reflexivity|]. split; [vm_compute; reflexivity|].
  split; [vm_compute; reflexivity|]. vm_compute. lia.
Qed.

(** C1, amended. In every reachable state at most one [generate] message
    has been posted since the worker last reported, a report being a
    [complete] message of any identifier, an [error] message, or the
    worker's [error] event. While such a request is outstanding the busy
    flag is set, and with the flag set [triggerInference] returns the
    state as it found it: nothing queued, nothing posted. While a request
    is outstanding, no event posts a [generate] message unless it is one
    of these reports. *)
Theorem C1_single_flight (s : Sys) :
  reachable s ->
  inFlight s <= 1
  /\ (inFlight s = 1 -> isWorkerBusy (core s) = true)
  /\ (forall r, isWorkerBusy (core s) = true ->
                triggerInference r (core s) = core s)
  /\ (forall e, inFlight s = 1 -> reportsEnd e = false ->
                generatesPosted (core s) (handle e (core s)) = 0).
Proof.
  intros Hs. pose proof (reachable_singleFlight s Hs) as [Hle Hz].
  split; [exact Hle|]. split; [|split].
  - intros H1. destruct (isWorkerBusy (core s)); [reflexivity|].
    specialize (Hz eq_refl). lia.
  - intros r Hb. apply triggerInference_busy, Hb.
  - intros e H1 He.
    pose proof (reachable_singleFlight _ (reach_step e s Hs)) as [Hle' _].
    unfold sysStep in Hle'. cbn [inFlight core] in Hle'.
    rewrite He in Hle'. lia.
Qed.

Lemma C1_single_flight_witness :
  reachable (sysRun oneShot boot)
  /\ inFlight (sysRun oneShot boot) = 1
  /\ isWorkerBusy (core (sysRun oneShot boot)) = true
  /\ triggerInference firstRender (core (sysRun oneShot boot))
     = core (sysRun oneShot boot).
Proof.
  assert (R : reachable (sysRun oneShot boot))
    by apply reachable_sysRun, reach_boot.
  destruct (C1_single_flight _ R) as (_ & Hb & Ht & _).
  assert (F : inFlight (sysRun oneShot boot) = 1) by (vm_compute; reflexivity).
  split; [exact R|]. split; [exact F|].
  split; [exact (Hb F) | exact (Ht firstRender (Hb F))].
Defined.

(** ** Draining the queue *)

Lemma dispatchedIds_generateOf qs :
  dispatchedIds (List.map generateOf qs) = List.map req_id qs.
Proof. induction qs as [|q qs IH]; [reflexivity|]. cbn. f_equal. exact IH. Qed.

Lemma workerEvent_post w st :
  posted (workerEvent w st) <> posted st ->
  exists i next rest,
    w = MessageEvent (MComplete i)
    /\ pendingRequests st = next :: rest
    /\ posted (workerEvent w st) = posted st ++ [generateOf next]
    /\ pendingRequests (workerEvent w st) = rest.
Proof.
  destruct w as [m|]; [destruct m as [d|it|it|f| |i|i o t|i|d|]|];
    cbn [workerEvent onMessageReceived];
    try (intros H; exfalso; apply H; reflexivity).
  rewrite processRequestQueue_firstRender.
  destruct (pendingRequests st) as [|q qs] eqn:E.
  - intros H; exfalso; apply H; reflexivity.
  - intros _. exists i, q, qs. repeat split; reflexivity.
Qed.

Lemma workerRun_posted ws : forall st,
  posted (workerRun ws st)
  = posted st
    ++ List.map generateOf (take (completions ws) (pendingRequests st)).
Proof.
  induction ws as [|w ws IH]; intros st.
  - cbn. rewrite take_0, app_nil_r. reflexivity.
  - cbn [workerRun fold_left]. fold (workerRun ws (workerEvent w st)).
    rewrite IH.
    destruct w as [m|]; [destruct m|];
      cbn [workerEvent onMessageReceived completions]; try reflexivity.
    + rewrite processRequestQueue_firstRender.
      destruct (pendingRequests st) as [|q qs] eqn:E.
      * cbn. rewrite E, !take_nil. reflexivity.
      * cbn. rewrite <- app_assoc. reflexivity.
    + cbn. rewrite take_nil, take_0. reflexivity.
Qed.

(** ** Which prompts become requests *)

Lemma trimStart_all s :
  forallb isWhiteSpace (trimStart s) = forallb isWhiteSpace s.
Proof.
  induction s as [|c s IH]; [reflexivity|]. cbn.
  destruct (isWhiteSpace c) eqn:E; [exact IH|]. cbn. rewrite E. reflexivity.
Qed.

Lemma trimStart_nil s : trimStart s = [] <-> forallb isWhiteSpace s = true.
Proof.
  induction s as [|c s IH]; [cbn; tauto|]. cbn.
  destruct (isWhiteSpace c); [exact IH|]. cbn. split; discriminate.
Qed.

Lemma forallb_rev {A} (f : A -> bool) l : forallb f (rev l) = forallb f l.
Proof.
  induction l as [|x l IH]; [reflexivity|]. cbn.
  rewrite forallb_app, IH. cbn. rewrite andb_true_r. apply andb_comm.
Qed.

(** [trim] leaves nothing exactly when every code unit is white space. *)
Lemma trim_nil s : trim s = [] <-> forallb isWhiteSpace s = true.
Proof.
  unfold trim, trimEnd.
  rewrite <- trimStart_all, <- forallb_rev, <- trimStart_nil.
  split; intros H.
  - apply (f_equal (@rev N)) in H. rewrite rev_involutive in H. exact H.
  - rewrite H. reflexivity.
Qed.

Lemma eligible_spec p :
  eligible p = true <-> enabled p = true /\ trim (text p) <> [].
Proof.
  unfold eligible. rewrite andb_true_iff, Nat.ltb_lt.
  destruct (trim (text p)); cbn; split; intros [H1 H2]; split;
    first [assumption | lia | congruence | discriminate].
Qed.

(** What the code builds is the selection of the specification. *)
Lemma buildRequests_Selects image ps :
  Selects image ps (buildRequests image ps).
Proof.
  induction ps as [|p ps IH]; [constructor|].
  unfold buildRequests. cbn [List.filter].
  destruct (eligible p) eqn:E.
  - apply eligible_spec in E as [He Ht]. cbn [List.map].
    apply sel_take; assumption.
  - apply sel_skip; [|exact IH].
    destruct (enabled p) eqn:He; [right|left; reflexivity].
    destruct (trim (text p)) as [|c t] eqn:Ht; [reflexivity|].
    assert (eligible p = true) as E'.
    { apply eligible_spec. split; [exact He|]. rewrite Ht. discriminate. }
    congruence.
Qed.

Lemma Selects_functional image ps qs qs' :
  Selects image ps qs -> Selects image ps qs' -> qs = qs'.
Proof.
  intros H. revert qs'. induction H as [|p ps qs He Ht _ IH|p ps qs Hs _ IH];
    intros qs' H'; inversion H'; subst.
  - reflexivity.
  - f_equal. apply IH. assumption.
  - destruct H1; congruence.
  - destruct Hs; congruence.
  - apply IH. assumption.
Qed.

(** C3. On a capture that succeeds while the worker is idle,
    [triggerInference] builds one request for each prompt that is enabled
    and whose trimmed text is not empty, in the order of the prompt list,
    and none for any other prompt: the first request is posted, the others
    are left in the queue in order. Without such a prompt the state is
    left as it was. *)
Theorem C3_requests_per_eligible_prompt
    (r : Render) (st : Core) (image : jsstring) :
  isWorkerBusy st = false ->
  captureFrame st = Some image ->
  truthy image = true ->
  exists requests,
    Selects image (r_prompts r) requests
    /\ (forall qs, Selects image (r_prompts r) qs -> qs = requests)
    /\ match requests with
       | [] => triggerInference r st = st
       | first :: rest =>
           posted (triggerInference r st) = posted st ++ [generateOf first]
           /\ pendingRequests (triggerInference r st) = rest
       end.
Proof.
  intros B C T. exists (buildRequests image (r_prompts r)).
  pose proof (buildRequests_Selects image (r_prompts r)) as S.
  split; [exact S|]. split.
  - intros qs Hqs. exact (Selects_functional _ _ _ _ Hqs S).
  - destruct (buildRequests image (r_prompts r)) as [|q qs] eqn:E.
    + exact (triggerInference_nothing r st image C E).
    + rewrite (triggerInference_capture r st image q qs B C T E).
      split; reflexivity.
Qed.

Lemma C3_requests_per_eligible_prompt_witness :
  isWorkerBusy twoPrompts = false
  /\ captureFrame twoPrompts = Some (frameDataURL sampleVideo)
  /\ truthy (frameDataURL sampleVideo) = true
  /\ exists requests,
       Selects (frameDataURL sampleVideo) (r_prompts (render twoPrompts))
         requests
       /\ (forall qs, Selects (frameDataURL sampleVideo)
                        (r_prompts (render twoPrompts)) qs -> qs = requests)
       /\ match requests with
          | [] => triggerInference (render twoPrompts) twoPrompts = twoPrompts
          | first :: rest =>
              posted (triggerInference (render twoPrompts) twoPrompts)
              = posted twoPrompts ++ [generateOf first]
              /\ pendingRequests
                   (triggerInference (render twoPrompts) twoPrompts) = rest
          end.
Proof.
  split; [reflexivity|]. split; [reflexivity|]. split; [reflexivity|].
  apply (C3_requests_per_eligible_prompt (render twoPrompts) twoPrompts
           (frameDataURL sampleVideo)); reflexivity.
Defined.

(** The claim of C2 fails on the identifier: after a capture for two
    prompts, which posts the request of prompt 0, a [complete] message
    that carries the identifier 99 makes the core post the request of
    prompt 1. The handler of [complete] does not read the identifier. *)
Lemma C2_counterexample :
  let st := triggerInference (render twoPrompts) twoPrompts in
  let st' := workerEvent (MessageEvent (MComplete 99)) st in
  dispatchedIds (newlyPosted twoPrompts st) = [0%N]
  /\ List.map req_id (pendingRequests st) = [1%N]
  /\ 99%N <> 0%N
  /\ dispatchedIds (newlyPosted st st') = [1%N].
Proof.
  cbv zeta. split; [vm_compute; reflexivity|].
  split; [vm_compute; reflexivity|]. split; [discriminate|].
  vm_compute. reflexivity.
Qed.

(** C2, amended. The queue is drained from its head, one request for each
    [complete] message, whatever identifier the message carries. A worker
    event makes the core post something only if it is a [complete]
    message handled with a non-empty queue, and the post is then the
    [generate] message of the head of the queue. Hence,
    along any sequence of worker events, the posts are those of the queue's
    first requests in queue order, as many as [complete] messages arrived
    (before an [error] message, which empties the queue); and after a
    capture, which posts its first request itself, the identifiers
    dispatched once the queue is drained are those of the capture's
    requests in the order they were built. *)
Theorem C2_sequential_dispatch (st : Core) (ws : list WorkerEvent) :
  (forall w s,
      posted (workerEvent w s) <> posted s ->
      exists i next rest,
        w = MessageEvent (MComplete i)
        /\ pendingRequests s = next :: rest
        /\ posted (workerEvent w s) = posted s ++ [generateOf next]
        /\ pendingRequests (workerEvent w s) = rest)
  /\ posted (workerRun ws st)
     = posted st
       ++ List.map generateOf (take (completions ws) (pendingRequests st))
  /\ (forall r image,
        isWorkerBusy st = false ->
        captureFrame st = Some image ->
        truthy image = true ->
        buildRequests image (r_prompts r) <> [] ->
        let requests := buildRequests image (r_prompts r) in
        let st' := workerRun ws (triggerInference r st) in
        newlyPosted st st'
        = List.map generateOf (take (S (completions ws)) requests)
        /\ (length requests <= S (completions ws) ->
            dispatchedIds (newlyPosted st st') = List.map req_id requests)).
Proof.
  split; [intros w s; apply workerEvent_post|].
  split; [apply workerRun_posted|].
  intros r image B C T NE requests st'.
  assert (Hp : newlyPosted st st'
               = List.map generateOf (take (S (completions ws)) requests)).
  { subst st' requests.
    destruct (buildRequests image (r_prompts r)) as [|q qs] eqn:E;
      [congruence|].
    rewrite (triggerInference_capture r st image q qs B C T E).
    unfold newlyPosted. rewrite workerRun_posted.
    cbn [posted dispatched postMessage with_posted pendingRequests
         with_pendingRequests].
    rewrite <- app_assoc, drop_app_length. reflexivity. }
  split; [exact Hp|].
  intros Hlen. rewrite Hp, take_ge by exact Hlen.
  apply dispatchedIds_generateOf.
Qed.

Lemma C2_sequential_dispatch_witness :
  isWorkerBusy twoPrompts = false
  /\ captureFrame twoPrompts = Some (frameDataURL sampleVideo)
  /\ truthy (frameDataURL sampleVideo) = true
  /\ buildRequests (frameDataURL sampleVideo) (prompts twoPrompts) <> []
  /\ length (buildRequests (frameDataURL sampleVideo) (prompts twoPrompts))
     <= S (completions twoAnswers)
  /\ dispatchedIds
       (newlyPosted twoPrompts
          (workerRun twoAnswers
             (triggerInference (render twoPrompts) twoPrompts)))
     = [0%N; 1%N].
Proof.
  assert (NE : buildRequests (frameDataURL sampleVideo) (prompts twoPrompts)
               <> []) by (vm_compute; discriminate).
  assert (L : length (buildRequests (frameDataURL sampleVideo)
                        (prompts twoPrompts))
              <= S (completions twoAnswers)) by (vm_compute; lia).
  split; [reflexivity|]. split; [reflexivity|]. split; [reflexivity|].
  split; [exact NE|]. split; [exact L|].
  destruct (C2_sequential_dispatch twoPrompts twoAnswers) as (_ & _ & H).
  destruct (H (render twoPrompts) (frameDataURL sampleVideo)
              eq_refl eq_refl eq_refl NE) as [_ Hids].
  rewrite (Hids L). reflexivity.
Defined.

(** ** Worker errors *)

(** C5. The handler of an [error] message, in one step: records the
    message, clears the busy flag, stops the analysis loop and empties the
    queue. It posts nothing, and no later worker event makes the core post
    anything: nothing is sent again. *)
Theorem C5_error_message (r : Render) (data : jsstring) (st : Core) :
  let st' := onMessageReceived r (MError data) st in
  error st' = Some data
  /\ isWorkerBusy st' = false
  /\ isAnalysisRunning st' = false
  /\ pendingRequests st' = []
  /\ posted st' = posted st
  /\ forall ws, posted (workerRun ws st') = posted st.
Proof.
  cbn. repeat split. intros ws. rewrite workerRun_posted. cbn.
  rewrite take_nil. cbn. apply app_nil_r.
Qed.

(** ** Output buffers *)

(** C6. The handler of an [update] message with identifier [i] and text
    [output] appends [output] to the buffer of [i] and leaves the buffer of
    every other identifier as it was. Where [i] has no buffer yet, the
    left operand of [+] is [undefined] and the new buffer is
    ["undefined"] followed by [output]. *)
Theorem C6_update_appends (r : Render) (i : N) (output : jsstring) (newTps : Q)
    (st : Core) :
  let st' := onMessageReceived r (MUpdate i output newTps) st in
  (forall prev, outputs st !! i = Some prev ->
                outputs st' !! i = Some (prev ++ output))
  /\ (outputs st !! i = None ->
      outputs st' !! i = Some (str "undefined" ++ output))
  /\ (forall j, j <> i -> outputs st' !! j = outputs st !! j).
Proof.
  cbn. split; [|split].
  - intros prev H. rewrite lookup_insert_eq, H. reflexivity.
  - intros H. rewrite lookup_insert_eq, H. reflexivity.
  - intros j Hj. rewrite lookup_insert_ne by congruence. reflexivity.
Qed.

Lemma C6_update_appends_witness :
  outputs initialState !! 0%N = Some []
  /\ outputs (onMessageReceived firstRender (MUpdate 0 (str "A man") 12)
                initialState) !! 0%N = Some ([] ++ str "A man")
  /\ 1%N <> 0%N
  /\ outputs (onMessageReceived firstRender (MUpdate 0 (str "A man") 12)
                initialState) !! 1%N = outputs initialState !! 1%N.
Proof.
  destruct (C6_update_appends firstRender 0 (str "A man") 12 initialState)
    as (Ha & _ & Ho).
  assert (H0 : outputs initialState !! 0%N = Some []) by reflexivity.
  assert (N1 : 1%N <> 0%N) by discriminate.
  split; [exact H0|]. split; [exact (Ha [] H0)|]. split; [exact N1|].
  exact (Ho 1%N N1).
Defined.

Lemma processRequestQueue_frame st :
  outputs (processRequestQueue firstRender st) = outputs st
  /\ status (processRequestQueue firstRender st) = status st.
Proof.
  rewrite processRequestQueue_firstRender.
  destruct (pendingRequests st); split; reflexivity.
Qed.

Lemma userAction_outputs a st j :
  a <> ClickClear j -> outputs (userAction a st) !! j = outputs st !! j.
Proof.
  intros Ha.
  destruct a as [|s|f|fr| |i t|k]; cbn [userAction];
    unfold handleFileUpload, toggleAnalysis;
    split_tests;
    try reflexivity.
  - destruct (triggerInference_frame (render st) st) as (-> & _). reflexivity.
  - cbn. apply lookup_insert_ne. congruence.
Qed.

Lemma analysisTick_frame st :
  outputs (analysisTick st) = outputs st
  /\ status (analysisTick st) = status st.
Proof.
  unfold analysisTick.
  split_tests;
    try (split; reflexivity);
    destruct (triggerInference_frame (render st) st) as (-> & -> & _);
    split; reflexivity.
Qed.

(** Every event other than a click on the [Clear] button of [j] keeps
    what buffer [j] holds and may only add to its end. *)
Lemma handle_appends e st j prev :
  e <> FromUser (ClickClear j) ->
  outputs st !! j = Some prev ->
  exists more, outputs (handle e st) !! j = Some (prev ++ more).
Proof.
  intros He Hj.
  assert (Same : outputs st !! j = Some (prev ++ []))
    by (rewrite app_nil_r; exact Hj).
  destruct e as [[m|]|a| |v]; cbn [handle workerEvent].
  - destruct m as [d|it|it|f| |i|i o t|i|d|]; cbn [onMessageReceived];
      try (exists []; exact Same).
    + (* start *)
      cbn. destruct (decide (i = j)) as [->|Hne].
      * rewrite lookup_insert_eq, Hj. cbn.
        destruct prev as [|c prev]; cbn; [exists [] | exists separator];
          reflexivity.
      * rewrite lookup_insert_ne by exact Hne. exists []; exact Same.
    + (* update *)
      cbn. destruct (decide (i = j)) as [->|Hne].
      * rewrite lookup_insert_eq, Hj. cbn. exists o; reflexivity.
      * rewrite lookup_insert_ne by exact Hne. exists []; exact Same.
    + (* complete *)
      destruct (processRequestQueue_frame st) as [-> _]. exists []; exact Same.
  - exists []; exact Same.
  - rewrite userAction_outputs by congruence. exists []; exact Same.
  - destruct (analysisTick_frame st) as [-> _]. exists []; exact Same.
  - exists []; exact Same.
Qed.

(** The claim of C7 fails on the first pass: the buffer of prompt 0 is
    empty when the component starts, and the handler of [start] leaves it
    empty instead of writing the separator. *)
Lemma C7_counterexample :
  outputs initialState !! 0%N = Some []
  /\ outputs (handle (FromWorker (MessageEvent (MStart 0))) initialState) !! 0%N
     = Some []
  /\ outputs (handle (FromWorker (MessageEvent (MStart 0))) initialState) !! 0%N
     <> Some ([] ++ separator).
Proof.
  split; [reflexivity|]. split; [reflexivity|]. vm_compute. discriminate.
Qed.

(** C7, amended. The handler of a [start] message with identifier [i]
    appends the separator to the buffer of [i] when that buffer holds
    text; an empty or missing buffer becomes the empty buffer, without
    separator. Every event other than a click on the [Clear] button of a
    buffer keeps what that buffer holds and at most adds to its end;
    [clearOutput] empties the buffer it is called for and no other. *)
Theorem C7_separator_amended :
  (forall r i st prev,
      outputs st !! i = Some prev -> prev <> [] ->
      outputs (onMessageReceived r (MStart i) st) !! i
      = Some (prev ++ separator))
  /\ (forall r i st,
        outputs st !! i = None \/ outputs st !! i = Some [] ->
        outputs (onMessageReceived r (MStart i) st) !! i = Some [])
  /\ (forall e st j prev,
        e <> FromUser (ClickClear j) ->
        outputs st !! j = Some prev ->
        exists more, outputs (handle e st) !! j = Some (prev ++ more))
  /\ (forall i st,
        outputs (clearOutput i st) !! i = Some []
        /\ forall j, j <> i ->
                     outputs (clearOutput i st) !! j = outputs st !! j).
Proof.
  split; [|split; [|split]].
  - intros r i st prev H Hne. cbn. rewrite lookup_insert_eq, H.
    destruct prev; [congruence | reflexivity].
  - intros r i st [H|H]; cbn; rewrite lookup_insert_eq, H; reflexivity.
  - exact handle_appends.
  - intros i st. cbn. split; [apply lookup_insert_eq|].
    intros j Hj. apply lookup_insert_ne. congruence.
Qed.

Lemma C7_separator_amended_witness :
  outputs firstAnswer !! 0%N = Some (str "Reading.")
  /\ str "Reading." <> []
  /\ outputs (onMessageReceived firstRender (MStart 0) firstAnswer) !! 0%N
     = Some (str "Reading." ++ separator)
  /\ outputs initialState !! 0%N = Some []
  /\ outputs (onMessageReceived firstRender (MStart 0) initialState) !! 0%N
     = Some []
  /\ exists more,
       outputs (handle (FromUser (ClickClear 1)) firstAnswer) !! 0%N
       = Some (str "Reading." ++ more).
Proof.
  destruct C7_separator_amended as (Hsep & Hempty & Happ & _).
  assert (H0 : outputs firstAnswer !! 0%N = Some (str "Reading."))
    by reflexivity.
  assert (N0 : str "Reading." <> []) by discriminate.
  assert (E0 : outputs initialState !! 0%N = Some []) by reflexivity.
  assert (C1 : FromUser (ClickClear 1) <> FromUser (ClickClear 0))
    by discriminate.
  split; [exact H0|]. split; [exact N0|].
  split; [exact (Hsep firstRender 0%N firstAnswer _ H0 N0)|].
  split; [exact E0|].
  split; [exact (Hempty firstRender 0%N initialState (or_intror E0))|].
  exact (Happ _ firstAnswer 0%N _ C1 H0).
Defined.

(** ** Session status *)

Lemma userAction_status a st :
  status (userAction a st) = status st
  \/ (status st = Unloaded /\ status (userAction a st) = Loading).
Proof.
  destruct a as [|s|f|fr| |i t|k]; cbn [userAction];
    unfold handleFileUpload, toggleAnalysis.
  2-7: left;
    split_tests;
    try reflexivity;
    destruct (triggerInference_frame (render st) st) as (_ & -> & _);
    reflexivity.
  destruct (isUnloaded (status st)) eqn:E; [right | left; reflexivity].
  destruct (status st); try discriminate E. split; reflexivity.
Qed.

(** One event moves the status forwards or not at all, unless it is a
    [loading] message. *)
Lemma handle_rank e st :
  isLoadingMessage e = false -> rank (status st) <= rank (status (handle e st)).
Proof.
  intros He. destruct e as [[m|]|a| |v]; cbn [handle workerEvent].
  - destruct m as [d|it|it|f| |i|i o t|i|d|]; try discriminate He;
      cbn [onMessageReceived]; try (cbn; lia).
    + cbn. destruct (status st); cbn; lia.
    + destruct (processRequestQueue_frame st) as [_ ->]. lia.
  - cbn. lia.
  - destruct (userAction_status a st) as [-> | [-> ->]]; cbn; lia.
  - destruct (analysisTick_frame st) as [_ ->]. lia.
  - cbn. lia.
Qed.

Lemma handle_loaded e st :
  status st <> Unloaded -> status (handle e st) <> Unloaded.
Proof.
  intros H. destruct (isLoadingMessage e) eqn:He.
  - destruct e as [[m|]|a| |v]; try discriminate He.
    destruct m; try discriminate He. cbn. discriminate.
  - pose proof (handle_rank e st He) as Hr.
    destruct (status st); [congruence | |];
      destruct (status (handle e st)); cbn in Hr; try lia; discriminate.
Qed.

(** The claim of C8 fails: a [loading] message that arrives when the
    status is ["ready"] sets it back to ["loading"]. *)
Lemma C8_counterexample :
  status (run [FromWorker (MessageEvent MReady)] initialState) = Ready
  /\ status (run [ FromWorker (MessageEvent MReady);
                   FromWorker (MessageEvent (MLoading (str "Loading..."))) ]
               initialState) = Loading.
Proof. split; reflexivity. Qed.

(** C8, amended. Along every sequence of events the status, once
    ["loading"] or ["ready"], never becomes [null] again; and along every
    sequence that holds no [loading] message of the worker it never moves
    backwards in the order [null], ["loading"], ["ready"]. A [loading]
    message sets the status to ["loading"] whatever it was. *)
Theorem C8_status_amended (evs : list Event) (st : Core) :
  (status st <> Unloaded -> status (run evs st) <> Unloaded)
  /\ (forallb (fun e => negb (isLoadingMessage e)) evs = true ->
      rank (status st) <= rank (status (run evs st)))
  /\ (forall d, status (handle (FromWorker (MessageEvent (MLoading d))) st)
                = Loading).
Proof.
  split; [|split].
  - revert st. induction evs as [|e evs IH]; intros st H; [exact H|].
    cbn. apply IH, handle_loaded, H.
  - revert st. induction evs as [|e evs IH]; intros st H; [cbn; lia|].
    cbn in H. apply andb_true_iff in H as [He Hevs].
    apply negb_true_iff in He. cbn [run fold_left].
    etransitivity; [apply (handle_rank e st He)|]. apply IH, Hevs.
  - reflexivity.
Qed.

Lemma C8_status_amended_witness :
  status (with_status Ready initialState) <> Unloaded
  /\ forallb (fun e => negb (isLoadingMessage e)) readySession = true
  /\ status (run readySession (with_status Ready initialState)) <> Unloaded
  /\ rank (status (with_status Ready initialState))
     <= rank (status (run readySession (with_status Ready initialState))).
Proof.
  destruct (C8_status_amended readySession (with_status Ready initialState))
    as (Hn & Hr & _).
  assert (H0 : status (with_status Ready initialState) <> Unloaded)
    by discriminate.
  assert (H1 : forallb (fun e => negb (isLoadingMessage e)) readySession = true)
    by reflexivity.
  split; [exact H0|]. split; [exact H1|].
  split; [exact (Hn H0) | exact (Hr H1)].
Defined.

(** ** Stopping the loop *)

(** C9. Called while the loop runs, [toggleAnalysis] stops the loop,
    posts one [interrupt] message and empties the queue, all in the same
    step. It leaves the busy flag as it was: the request in flight is
    neither awaited nor taken to have stopped. The [Stop Loop] button
    calls it whenever a frame rate other than manual is selected. *)
Theorem C9_stop_loop (st : Core) :
  (forall r,
      r_isAnalysisRunning r = true ->
      let st' := toggleAnalysis r st in
      posted st' = posted st ++ [PostInterrupt]
      /\ pendingRequests st' = []
      /\ isAnalysisRunning st' = false
      /\ isWorkerBusy st' = isWorkerBusy st)
  /\ (status st = Ready -> mainActionDisabled st = false ->
      Qeq_bool (videoFramerate st) 0 = false ->
      handle (FromUser ClickMainAction) st = toggleAnalysis (render st) st).
Proof.
  split.
  - intros r H. unfold toggleAnalysis. rewrite H. cbn. repeat split.
  - intros Hs Hd Hf. cbn. rewrite Hs, Hd, Hf. reflexivity.
Qed.

Lemma C9_stop_loop_witness :
  r_isAnalysisRunning (render loopRunning) = true
  /\ status loopRunning = Ready
  /\ mainActionDisabled loopRunning = false
  /\ Qeq_bool (videoFramerate loopRunning) 0 = false
  /\ length (pendingRequests loopRunning) = 1
  /\ isWorkerBusy loopRunning = true
  /\ posted (handle (FromUser ClickMainAction) loopRunning)
     = posted loopRunning ++ [PostInterrupt]
  /\ pendingRequests (handle (FromUser ClickMainAction) loopRunning) = []
  /\ isWorkerBusy (handle (FromUser ClickMainAction) loopRunning) = true.
Proof.
  destruct (C9_stop_loop loopRunning) as [Ht Hc].
  assert (R : r_isAnalysisRunning (render loopRunning) = true) by reflexivity.
  assert (S : status loopRunning = Ready) by reflexivity.
  assert (D : mainActionDisabled loopRunning = false) by reflexivity.
  assert (F : Qeq_bool (videoFramerate loopRunning) 0 = false) by reflexivity.
  destruct (Ht (render loopRunning) R) as (Hp & Hq & _ & Hb).
  rewrite (Hc S D F).
  split; [exact R|]. split; [exact S|]. split; [exact D|]. split; [exact F|].
  split; [reflexivity|]. split; [reflexivity|].
  split; [exact Hp|]. split; [exact Hq|]. rewrite Hb. reflexivity.
Defined.

(** ** Max-speed mode *)

(** The listener's [processRequestQueue] on an empty queue clears the busy
    flag and does nothing else, whatever mode the component is in now. *)
Lemma complete_on_empty_queue i st :
  pendingRequests st = [] ->
  handle (FromWorker (MessageEvent (MComplete i))) st
  = with_isWorkerBusy false st.
Proof.
  intros H. cbn. rewrite processRequestQueue_firstRender, H. reflexivity.
Qed.

(** C4, the code at the failing input. In max-speed mode with the loop
    running, a frame available and an eligible prompt, the [complete]
    message of the capture's last request finds the queue empty, and the
    handler clears the busy flag without capturing again: one [generate]
    message has been posted in all. The listener still holds the
    [processRequestQueue] of the first render, where the frame rate is [0]
    and the loop is stopped; called with the values of the latest render,
    the same function captures and posts again. *)
Theorem C4_drain_does_not_retrigger :
  let before := run maxSpeedStart initialState in
  let st := run maxSpeedDrained initialState in
  status st = Ready
  /\ Qeq_bool (videoFramerate st) (-1) = true
  /\ isAnalysisRunning st = true
  /\ captureFrame st = Some (frameDataURL sampleVideo)
  /\ List.map req_id (buildRequests (frameDataURL sampleVideo) (prompts st))
     = [0%N]
  /\ pendingRequests before = []
  /\ isWorkerBusy st = false
  /\ pendingRequests st = []
  /\ dispatchedIds (posted st) = [0%N]
  /\ dispatchedIds (posted (processRequestQueue (render before) before))
     = [0%N; 0%N].
Proof. cbv zeta. repeat split; vm_compute; reflexivity. Qed.

(** ** The busy flag and the queue *)

Lemma idleMeansEmpty_step e st :
  isErrorEvent e = false -> idleMeansEmpty st -> idleMeansEmpty (handle e st).
Proof.
  unfold idleMeansEmpty. intros He Hst.
  assert (Trig : forall r, isWorkerBusy (triggerInference r st) = false ->
                           pendingRequests (triggerInference r st) = []).
  { intros r. destruct (triggerInference_cases r st)
      as [-> | (_ & image & q & qs & _ & _ & _ & ->)];
      [exact Hst | discriminate]. }
  destruct e as [[m|]|a| |v]; cbn [handle workerEvent]; try discriminate He.
  - destruct m as [d|it|it|f| |i|i o t|i|d|]; cbn [onMessageReceived];
      try exact Hst; try reflexivity.
    rewrite processRequestQueue_firstRender.
    destruct (pendingRequests st) as [|q qs] eqn:E;
      [intros _; exact E | discriminate].
  - destruct a as [|s|f|fr| |i t|k]; cbn [userAction];
      unfold handleFileUpload, toggleAnalysis;
      split_tests;
      first [exact Hst | apply Trig | reflexivity].
  - unfold analysisTick.
    split_tests;
      first [exact Hst | apply Trig].
  - exact Hst.
Qed.

(** Without the worker's [error] event, an idle flag means an empty queue. *)
Lemma idleMeansEmpty_run evs :
  forallb (fun e => negb (isErrorEvent e)) evs = true ->
  forall st, idleMeansEmpty st -> idleMeansEmpty (run evs st).
Proof.
  induction evs as [|e evs IH]; intros H st Hst; [exact Hst|].
  cbn in H. apply andb_true_iff in H as [He Hevs]. apply negb_true_iff in He.
  cbn [run fold_left]. apply (IH Hevs), idleMeansEmpty_step; assumption.
Qed.

(** C10, the code at the failing input. [onErrorReceived] clears the busy
    flag and leaves the queue alone: the state is reachable, the flag is
    clear, and the request of the second prompt is still queued. The
    handler of the [error] message, run on the same state in its place,
    empties the queue. *)
Theorem C10_error_event_leaves_queue :
  let st := run errorEventMidCapture initialState in
  let before := run (removelast errorEventMidCapture) initialState in
  isWorkerBusy st = false
  /\ List.map req_id (pendingRequests st) = [1%N]
  /\ st = onErrorReceived before
  /\ pendingRequests
       (onMessageReceived firstRender (MError (str "failed")) before) = [].
Proof. cbv zeta. repeat split; vm_compute; reflexivity. Qed.

(** * Further properties *)

(** ** Editing prompts *)

Lemma updatePrompt_ids i t st :
  List.map id (prompts (updatePrompt i t st)) = List.map id (prompts st)
  /\ List.map enabled (prompts (updatePrompt i t st))
     = List.map enabled (prompts st).
Proof.
  cbn. induction (prompts st) as [|p ps [IH1 IH2]]; [split; reflexivity|].
  cbn. rewrite IH1, IH2. destruct (id p =? i)%N; split; reflexivity.
Qed.

(** X1. Editing the prompt with identifier [i] keeps the identifiers and
    the enabled flags of all prompts, in order; afterwards every prompt
    with identifier [i] holds the new text, and every prompt with another
    identifier is in the list as it was. *)
Theorem X1_updatePrompt_frame (i : N) (t : jsstring) (st : Core) :
  List.map id (prompts (updatePrompt i t st)) = List.map id (prompts st)
  /\ List.map enabled (prompts (updatePrompt i t st))
     = List.map enabled (prompts st)
  /\ Forall (fun p => id p = i -> text p = t) (prompts (updatePrompt i t st))
  /\ Forall (fun p => id p <> i -> In p (prompts (updatePrompt i t st)))
       (prompts st).
Proof.
  destruct (updatePrompt_ids i t st) as [H1 H2].
  split; [exact H1|]. split; [exact H2|]. cbn. split.
  - apply List.Forall_forall. intros p Hp.
    apply in_map_iff in Hp as (q & <- & _).
    destruct (id q =? i)%N eqn:E; cbn; [reflexivity|].
    apply N.eqb_neq in E. congruence.
  - apply List.Forall_forall. intros p Hp Hne. apply in_map_iff. exists p.
    split; [|exact Hp]. apply N.eqb_neq in Hne. rewrite Hne. reflexivity.
Qed.

(** X2. Edits compose as writes to cells: of two edits of the same prompt
    the later one wins, and edits of different prompts commute. *)
Theorem X2_updatePrompt_compose (i j : N) (t t' : jsstring) (st : Core) :
  updatePrompt i t (updatePrompt i t' st) = updatePrompt i t st
  /\ (i <> j ->
      updatePrompt i t (updatePrompt j t' st)
      = updatePrompt j t' (updatePrompt i t st)).
Proof.
  split.
  - unfold updatePrompt, with_prompts. cbn. f_equal.
    rewrite List.map_map. apply List.map_ext. intros p.
    destruct (id p =? i)%N eqn:E; cbn; rewrite E; reflexivity.
  - intros Hij. unfold updatePrompt, with_prompts. cbn. f_equal.
    rewrite !List.map_map. apply List.map_ext. intros p.
    destruct (id p =? i)%N eqn:Ei, (id p =? j)%N eqn:Ej; cbn;
      rewrite ?Ei, ?Ej; try reflexivity.
    apply N.eqb_eq in Ei, Ej. congruence.
Qed.

Lemma X2_updatePrompt_compose_witness :
  0%N <> 1%N
  /\ updatePrompt 0 (str "Who is there?")
       (updatePrompt 1 (str "Count the people") initialState)
     = updatePrompt 1 (str "Count the people")
         (updatePrompt 0 (str "Who is there?") initialState).
Proof.
  assert (H : 0%N <> 1%N) by discriminate.
  split; [exact H|].
  destruct (X2_updatePrompt_compose 0 1 (str "Who is there?")
              (str "Count the people") initialState) as [_ G].
  exact (G H).
Defined.

Lemma triggerInference_Posting e st :
  e = AnalysisTick \/ e = FromUser ClickMainAction ->
  Posting e st (triggerInference (render st) st).
Proof.
  intros He.
  destruct (triggerInference_cases (render st) st)
    as [-> | (B & image & q & qs & C & _ & E & ->)].
  - apply post_nothing; reflexivity.
  - apply (post_capture _ _ _ image q qs); try assumption; reflexivity.
Qed.

Lemma handle_Posting e st : Posting e st (handle e st).
Proof.
  destruct e as [[m|]|a| |v]; cbn [handle workerEvent].
  - destruct m as [d|it|it|f| |i|i o t|i|d|]; cbn [onMessageReceived];
      try (apply post_nothing; reflexivity).
    + rewrite processRequestQueue_firstRender.
      destruct (pendingRequests st) as [|q qs] eqn:E.
      * apply post_nothing; [reflexivity | cbn; congruence].
      * apply (post_next _ _ _ i q qs); try reflexivity. exact E.
    + apply (post_discard _ _ _ d); reflexivity.
  - apply post_nothing; reflexivity.
  - destruct a as [|s|f|fr| |i t|k]; cbn [userAction].
    + destruct (isUnloaded (status st)) eqn:E;
        [|apply post_nothing; reflexivity].
      apply post_load; try reflexivity.
      destruct (status st); try discriminate E.
      reflexivity.
    + destruct (isReady (status st)); apply post_nothing; reflexivity.
    + unfold handleFileUpload. split_tests; apply post_nothing; reflexivity.
    + destruct (isReady (status st)); apply post_nothing; reflexivity.
    + destruct (isReady (status st) && negb (mainActionDisabled st));
        [|apply post_nothing; reflexivity].
      destruct (Qeq_bool (videoFramerate st) 0) eqn:F.
      * apply triggerInference_Posting. right; reflexivity.
      * unfold toggleAnalysis. cbn [render r_isAnalysisRunning].
        destruct (isAnalysisRunning st) eqn:R;
          [|apply post_nothing; reflexivity].
        apply post_interrupt; try reflexivity; assumption.
    + destruct (isReady (status st)); apply post_nothing; reflexivity.
    + destruct (isReady (status st)); apply post_nothing; reflexivity.
  - unfold analysisTick. split_tests;
      first [ apply post_nothing; reflexivity
            | apply triggerInference_Posting; left; reflexivity ].
  - apply post_nothing; reflexivity.
Qed.

Lemma handle_prompts e st :
  List.map id (prompts (handle e st)) = List.map id (prompts st)
  /\ List.map enabled (prompts (handle e st)) = List.map enabled (prompts st).
Proof.
  assert (T : forall r, prompts (triggerInference r st) = prompts st).
  { intros r. destruct (triggerInference_cases r st)
      as [-> | (_ & image & q & qs & _ & _ & _ & ->)]; reflexivity. }
  destruct e as [[m|]|a| |v]; cbn [handle workerEvent].
  - destruct m as [d|it|it|f| |i|i o t|i|d|]; cbn [onMessageReceived];
      try (split; reflexivity).
    rewrite processRequestQueue_firstRender.
    destruct (pendingRequests st); split; reflexivity.
  - split; reflexivity.
  - destruct a as [|s|f|fr| |i t|k]; cbn [userAction];
      unfold handleFileUpload, toggleAnalysis; split_tests;
      rewrite ?T; try (split; reflexivity).
    apply updatePrompt_ids.
  - unfold analysisTick. split_tests; rewrite ?T; split; reflexivity.
  - split; reflexivity.
Qed.

(** X3. No sequence of events adds, removes, reorders, renumbers, enables
    or disables a prompt: the identifiers and the enabled flags of the
    prompt list are the same after any run. *)
Theorem X3_prompts_stable (evs : list Event) (st : Core) :
  List.map id (prompts (run evs st)) = List.map id (prompts st)
  /\ List.map enabled (prompts (run evs st)) = List.map enabled (prompts st).
Proof.
  revert st. induction evs as [|e evs IH]; intros st; [split; reflexivity|].
  cbn [run fold_left]. destruct (IH (handle e st)) as [H1 H2].
  destruct (handle_prompts e st) as [G1 G2].
  unfold run in H1, H2. rewrite H1, H2, G1, G2. split; reflexivity.
Qed.

(** ** Request identifiers *)

Lemma buildRequests_ids image ps :
  List.map req_id (buildRequests image ps)
  = List.map id (List.filter eligible ps).
Proof.
  unfold buildRequests. rewrite List.map_map. reflexivity.
Qed.

Lemma filter_ids_sublist ps :
  sublist (List.map id (List.filter eligible ps)) (List.map id ps).
Proof.
  induction ps as [|p ps IH]; [constructor|]. cbn.
  destruct (eligible p); cbn; [apply sublist_skip | apply sublist_cons];
    exact IH.
Qed.

(** X4. The identifiers of the requests built for a frame are those of the
    eligible prompts in prompt order, a sub-sequence of the prompt
    identifiers; when the prompts have distinct identifiers, so have the
    requests. *)
Theorem X4_request_ids (image : jsstring) (ps : list Prompt) :
  NoDup (List.map id ps) ->
  List.map req_id (buildRequests image ps)
  = List.map id (List.filter eligible ps)
  /\ sublist (List.map req_id (buildRequests image ps)) (List.map id ps)
  /\ NoDup (List.map req_id (buildRequests image ps)).
Proof.
  intros H. rewrite buildRequests_ids. split; [reflexivity|].
  split; [apply filter_ids_sublist|].
  eapply sublist_NoDup; [exact H | apply filter_ids_sublist].
Qed.

Lemma X4_request_ids_witness :
  NoDup (List.map id (prompts twoPrompts))
  /\ List.map req_id
       (buildRequests (frameDataURL sampleVideo) (prompts twoPrompts))
     = [0%N; 1%N].
Proof.
  assert (H : NoDup (List.map id (prompts twoPrompts))).
  { apply (bool_decide_unpack _). vm_compute. exact I. }
  split; [exact H|].
  destruct (X4_request_ids (frameDataURL sampleVideo) (prompts twoPrompts) H)
    as (-> & _). reflexivity.
Defined.

Lemma dispatchedIds_app l k :
  dispatchedIds (l ++ k) = dispatchedIds l ++ dispatchedIds k.
Proof. unfold dispatchedIds. apply omap_app. Qed.

Lemma sublist_In {A} (l k : list A) x : sublist l k -> In x l -> In x k.
Proof.
  intros H Hx. apply list_elem_of_In. apply list_elem_of_In in Hx.
  eapply sublist_subseteq; eassumption.
Qed.

Lemma knownIds_step e st :
  knownIds (List.map id (prompts st)) st ->
  knownIds (List.map id (prompts st)) (handle e st).
Proof.
  intros [Hq Hp]. unfold knownIds.
  destruct (handle_Posting e st)
    as [-> -> | _ _ -> -> | _ _ _ -> -> | d _ -> ->
        | image q qs _ _ _ E -> -> _ | i q qs _ E -> -> _ ].
  - split; assumption.
  - rewrite dispatchedIds_app. cbn. rewrite app_nil_r. split; assumption.
  - rewrite dispatchedIds_app. cbn. rewrite app_nil_r.
    split; [apply sublist_nil_l | assumption].
  - split; [apply sublist_nil_l | assumption].
  - pose proof (filter_ids_sublist (prompts st)) as S.
    rewrite <- buildRequests_ids with (image := image) in S. rewrite E in S.
    cbn in S. rewrite dispatchedIds_app. cbn. split.
    + etransitivity; [apply sublist_cons; reflexivity | exact S].
    + apply Forall_app. split; [exact Hp|]. constructor; [|constructor].
      apply (sublist_In _ _ _ S). left; reflexivity.
  - rewrite E in Hq. cbn in Hq. rewrite dispatchedIds_app. cbn. split.
    + etransitivity; [apply sublist_cons; reflexivity | exact Hq].
    + apply Forall_app. split; [exact Hp|]. constructor; [|constructor].
      apply (sublist_In _ _ _ Hq). left; reflexivity.
Qed.

(** X5. In every run of the component, each request waiting in the queue
    and each [generate] message posted carries the identifier of one of
    the two prompts, and the identifiers waiting in the queue are distinct
    and in prompt order. *)
Theorem X5_ids_are_prompt_ids (evs : list Event) :
  let st := run evs initialState in
  sublist (List.map req_id (pendingRequests st)) [0%N; 1%N]
  /\ Forall (fun i => i = 0%N \/ i = 1%N) (dispatchedIds (posted st)).
Proof.
  cbv zeta.
  assert (G : forall evs st,
             List.map id (prompts st) = [0%N; 1%N] ->
             knownIds [0%N; 1%N] st -> knownIds [0%N; 1%N] (run evs st)).
  { clear evs. induction evs as [|e evs IH]; intros st Hi Hk; [exact Hk|].
    cbn [run fold_left]. apply IH.
    - destruct (handle_prompts e st) as [-> _]. exact Hi.
    - rewrite <- Hi. apply knownIds_step. rewrite Hi. exact Hk. }
  destruct (G evs initialState eq_refl) as [Hq Hp].
  { split; [apply sublist_nil_l | constructor]. }
  split; [exact Hq|].
  eapply Forall_impl; [exact Hp|]. cbn. intros i [H|[H|[]]]; auto.
Qed.

(** ** What an event may post *)

(** X6. One event makes the core post at most one message, appended to
    those posted before. A [load] message is posted only by the load
    button while the status is [null]; an [interrupt] message only by the
    loop button while the loop runs; a [generate] message only by a
    [complete] message, which sends the head of the queue, or by a call of
    [triggerInference] (analysis effect or button) with the busy flag
    clear; a [check] message by no event. *)
Theorem X6_posts_per_event (e : Event) (st : Core) :
  exists l,
    posted (handle e st) = posted st ++ l
    /\ length l <= 1
    /\ forall m, In m l ->
         match m with
         | PostCheck => False
         | PostLoad => e = FromUser ClickLoadModel /\ status st = Unloaded
         | PostInterrupt =>
             e = FromUser ClickMainAction /\ isAnalysisRunning st = true
         | PostGenerate _ _ =>
             (exists i q qs,
                 e = FromWorker (MessageEvent (MComplete i))
                 /\ pendingRequests st = q :: qs /\ m = generateOf q)
             \/ ((e = AnalysisTick \/ e = FromUser ClickMainAction)
                 /\ isWorkerBusy st = false)
         end.
Proof.
  destruct (handle_Posting e st)
    as [-> _ | He Hs -> _ | He Hr _ -> _ | d _ -> _
        | image q qs He B _ _ -> _ _ | i q qs He E -> _ _ ].
  - exists []. rewrite app_nil_r. split; [reflexivity|].
    split; [cbn; lia | intros m []].
  - exists [PostLoad]. split; [reflexivity|]. split; [cbn; lia|].
    intros m [<-|[]]. split; assumption.
  - exists [PostInterrupt]. split; [reflexivity|]. split; [cbn; lia|].
    intros m [<-|[]]. split; assumption.
  - exists []. rewrite app_nil_r. split; [reflexivity|].
    split; [cbn; lia | intros m []].
  - exists [generateOf q]. split; [reflexivity|]. split; [cbn; lia|].
    intros m [<-|[]]. right. split; assumption.
  - exists [generateOf q]. split; [reflexivity|]. split; [cbn; lia|].
    intros m [<-|[]]. left. exists i, q, qs. repeat split; assumption.
Qed.

Lemma X6_posts_per_event_witness :
  exists l,
    posted (handle (FromUser ClickLoadModel) initialState)
    = posted initialState ++ l
    /\ length l <= 1
    /\ (In PostLoad l ->
        FromUser ClickLoadModel = FromUser ClickLoadModel
        /\ status initialState = Unloaded).
Proof.
  destruct (X6_posts_per_event (FromUser ClickLoadModel) initialState)
    as (l & Hp & Hl & Hm).
  exists l. split; [exact Hp|]. split; [exact Hl|].
  intros H. exact (Hm PostLoad H).
Defined.

Lemma loadedOnce_step e st : loadedOnce st -> loadedOnce (handle e st).
Proof.
  intros (Hc & Hl & Hu). unfold loadedOnce.
  assert (U : status (handle e st) = Unloaded -> status st = Unloaded).
  { intros H. destruct (status st) eqn:E; [reflexivity | exfalso ..];
      (apply (handle_loaded e st); [rewrite E; discriminate | exact H]). }
  destruct (handle_Posting e st)
    as [-> _ | He Hs -> _ | He Hr _ -> _ | d _ -> _
        | image q qs He B _ _ -> _ _ | i q qs He E -> _ _ ];
    rewrite ?List.filter_app, ?length_app; cbn;
    rewrite ?app_nil_r, ?Nat.add_0_r;
    try (split; [exact Hc|]; split; [exact Hl | intros H; exact (Hu (U H))]).
  rewrite (Hu Hs). cbn. split; [exact Hc|]. split; [lia|].
  intros H. subst e. cbn in H. rewrite Hs in H. discriminate H.
Qed.

(** X7. In every run of the component the [check] message is posted
    once, at mount, and the [load] message at most once: the load button
    acts only while the status is [null], and the status never returns
    to [null]. *)
Theorem X7_load_at_most_once (evs : list Event) :
  length (List.filter isCheck (posted (run evs initialState))) = 1
  /\ length (List.filter isLoad (posted (run evs initialState))) <= 1.
Proof.
  assert (G : forall evs st, loadedOnce st -> loadedOnce (run evs st)).
  { clear evs. induction evs as [|e evs IH]; intros st H; [exact H|].
    cbn [run fold_left]. apply IH, loadedOnce_step, H. }
  destruct (G evs initialState) as (Hc & Hl & _).
  { repeat split. cbn. lia. }
  split; assumption.
Qed.

(** ** Idle states *)

(** X8. In every run in which the worker's [error] event does not occur,
    a clear busy flag means an empty queue. *)
Theorem X8_idle_means_empty (evs : list Event) :
  forallb (fun e => negb (isErrorEvent e)) evs = true ->
  isWorkerBusy (run evs initialState) = false ->
  pendingRequests (run evs initialState) = [].
Proof.
  intros H. apply (idleMeansEmpty_run evs H initialState).
  intros _. reflexivity.
Qed.

Lemma X8_idle_means_empty_witness :
  forallb (fun e => negb (isErrorEvent e)) maxSpeedDrained = true
  /\ isWorkerBusy (run maxSpeedDrained initialState) = false
  /\ pendingRequests (run maxSpeedDrained initialState) = [].
Proof.
  assert (H : forallb (fun e => negb (isErrorEvent e)) maxSpeedDrained = true)
    by reflexivity.
  assert (B : isWorkerBusy (run maxSpeedDrained initialState) = false)
    by reflexivity.
  split; [exact H|]. split; [exact B|].
  exact (X8_idle_means_empty maxSpeedDrained H B).
Defined.

Lemma quiescent_step e st :
  isPassive e = true -> quiescent st ->
  quiescent (handle e st) /\ posted (handle e st) = posted st.
Proof.
  intros He [Hr Hq]. unfold quiescent.
  destruct e as [[m|]|a| |v]; try discriminate He; cbn [handle workerEvent].
  - destruct m as [d|it|it|f| |i|i o t|i|d|]; cbn [onMessageReceived];
      try (repeat split; assumption).
    rewrite processRequestQueue_firstRender, Hq. repeat split; assumption.
  - repeat split; assumption.
  - unfold analysisTick. rewrite Hr. repeat split; assumption.
  - repeat split; assumption.
Qed.

(** X9. While the loop is stopped and the queue is empty, nothing but a
    user action makes the core post a message: whatever the worker
    reports, whatever the analysis effect and the video element do, the
    messages posted stay the same, the loop stays stopped and the queue
    stays empty. In particular nothing is sent after the loop was stopped
    or after an [error] message. *)
Theorem X9_quiescent (evs : list Event) (st : Core) :
  isAnalysisRunning st = false ->
  pendingRequests st = [] ->
  forallb isPassive evs = true ->
  posted (run evs st) = posted st
  /\ isAnalysisRunning (run evs st) = false
  /\ pendingRequests (run evs st) = [].
Proof.
  revert st. induction evs as [|e evs IH]; intros st Hr Hq H.
  - repeat split; assumption.
  - cbn in H. apply andb_true_iff in H as [He Hevs]. cbn [run fold_left].
    destruct (quiescent_step e st He (conj Hr Hq)) as [[Hr' Hq'] Hp].
    destruct (IH (handle e st) Hr' Hq' Hevs) as (Hp' & Hr'' & Hq'').
    unfold run in Hp'. rewrite Hp', Hp. repeat split; assumption.
Qed.

Lemma X9_quiescent_witness :
  isAnalysisRunning (handle (FromUser ClickMainAction) loopRunning) = false
  /\ pendingRequests (handle (FromUser ClickMainAction) loopRunning) = []
  /\ forallb isPassive afterStop = true
  /\ posted (run afterStop (handle (FromUser ClickMainAction) loopRunning))
     = posted loopRunning ++ [PostInterrupt].
Proof.
  assert (R : isAnalysisRunning (handle (FromUser ClickMainAction) loopRunning)
              = false) by (vm_compute; reflexivity).
  assert (Q : pendingRequests (handle (FromUser ClickMainAction) loopRunning)
              = []) by (vm_compute; reflexivity).
  assert (P : forallb isPassive afterStop = true) by (vm_compute; reflexivity).
  split; [exact R|]. split; [exact Q|]. split; [exact P|].
  destruct (X9_quiescent afterStop _ R Q P) as (-> & _).
  vm_compute. reflexivity.
Defined.

(** ** Draining without error *)

Lemma workerRun_pending ws : forall st,
  forallb (fun w => negb (isErrorMessage w)) ws = true ->
  pendingRequests (workerRun ws st)
  = drop (completions ws) (pendingRequests st).
Proof.
  induction ws as [|w ws IH]; intros st H; [reflexivity|].
  cbn in H. apply andb_true_iff in H as [Hw Hws].
  cbn [workerRun fold_left]. fold (workerRun ws (workerEvent w st)).
  rewrite (IH _ Hws).
  destruct w as [m|]; [destruct m as [d|it|it|f| |i|i o t|i|d|]|];
    try discriminate Hw; cbn [workerEvent onMessageReceived completions];
    try reflexivity.
  rewrite processRequestQueue_firstRender.
  destruct (pendingRequests st) as [|q qs] eqn:E; cbn; [|reflexivity].
  rewrite E, drop_nil. reflexivity.
Qed.

Lemma workerRun_idle ws : forall st,
  pendingRequests st = [] -> isWorkerBusy st = false ->
  isWorkerBusy (workerRun ws st) = false.
Proof.
  induction ws as [|w ws IH]; intros st Hq Hb; [exact Hb|].
  cbn [workerRun fold_left]. fold (workerRun ws (workerEvent w st)).
  destruct w as [m|]; [destruct m as [d|it|it|f| |i|i o t|i|d|]|];
    cbn [workerEvent onMessageReceived];
    try (apply IH; first [assumption | reflexivity]).
  rewrite processRequestQueue_firstRender, Hq.
  apply IH; [exact Hq | reflexivity].
Qed.

Lemma workerRun_drained ws : forall st,
  forallb (fun w => negb (isErrorMessage w)) ws = true ->
  length (pendingRequests st) < completions ws ->
  isWorkerBusy (workerRun ws st) = false.
Proof.
  induction ws as [|w ws IH]; intros st H L; [cbn in L; lia|].
  cbn in H. apply andb_true_iff in H as [Hw Hws].
  cbn [workerRun fold_left]. fold (workerRun ws (workerEvent w st)).
  destruct w as [m|]; [destruct m as [d|it|it|f| |i|i o t|i|d|]|];
    try discriminate Hw; cbn [workerEvent onMessageReceived completions] in *;
    try (apply (IH _ Hws); exact L).
  rewrite processRequestQueue_firstRender.
  destruct (pendingRequests st) as [|q qs] eqn:E.
  - apply workerRun_idle; [exact E | reflexivity].
  - apply (IH _ Hws). cbn in *. lia.
Qed.

(** X10. Along a sequence of worker events without [error] message no
    request is lost or sent twice: the [generate] messages posted followed
    by those of the requests still queued are those of the queue at the
    start, in order. Once more [complete] messages have arrived than
    requests were queued, the queue is empty and the busy flag is clear. *)
Theorem X10_drain (ws : list WorkerEvent) (st : Core) :
  forallb (fun w => negb (isErrorMessage w)) ws = true ->
  newlyPosted st (workerRun ws st)
    ++ List.map generateOf (pendingRequests (workerRun ws st))
  = List.map generateOf (pendingRequests st)
  /\ (length (pendingRequests st) < completions ws ->
      pendingRequests (workerRun ws st) = []
      /\ isWorkerBusy (workerRun ws st) = false).
Proof.
  intros H. split.
  - unfold newlyPosted. rewrite workerRun_posted, drop_app_length.
    rewrite (workerRun_pending ws st H), <- List.map_app, take_drop.
    reflexivity.
  - intros L. split; [|exact (workerRun_drained ws st H L)].
    rewrite (workerRun_pending ws st H). apply drop_ge. lia.
Qed.

Lemma X10_drain_witness :
  forallb (fun w => negb (isErrorMessage w)) twoAnswers = true
  /\ length (pendingRequests (triggerInference (render twoPrompts) twoPrompts))
     < completions twoAnswers
  /\ pendingRequests
       (workerRun twoAnswers (triggerInference (render twoPrompts) twoPrompts))
     = []
  /\ isWorkerBusy
       (workerRun twoAnswers (triggerInference (render twoPrompts) twoPrompts))
     = false.
Proof.
  assert (H : forallb (fun w => negb (isErrorMessage w)) twoAnswers = true)
    by reflexivity.
  assert (L : length (pendingRequests
                        (triggerInference (render twoPrompts) twoPrompts))
              < completions twoAnswers) by (vm_compute; lia).
  split; [exact H|]. split; [exact L|].
  destruct (X10_drain twoAnswers
              (triggerInference (render twoPrompts) twoPrompts) H) as [_ G].
  exact (G L).
Defined.

(** ** The loop button *)

(** X11. With a positive frame rate selected and the button enabled, two
    clicks on the loop button with no firing of the interval in between,
    the second after the re-render the first one causes, put the loop flag
    back to what it was, post exactly one [interrupt] message and leave
    the queue empty. (For the rate [-1] the analysis effect calls
    [triggerInference] itself as soon as the loop starts, so that two
    clicks are never adjacent there.) *)
Theorem X11_toggle_twice (st : Core) :
  status st = Ready ->
  mainActionDisabled st = false ->
  Qle_bool (videoFramerate st) 0 = false ->
  let st' := handle (FromUser ClickMainAction)
               (handle (FromUser ClickMainAction) st) in
  isAnalysisRunning st' = isAnalysisRunning st
  /\ posted st' = posted st ++ [PostInterrupt]
  /\ pendingRequests st' = []
  /\ isWorkerBusy st' = isWorkerBusy st.
Proof.
  intros Hs Hd Hpos.
  assert (Hf : Qeq_bool (videoFramerate st) 0 = false).
  { destruct (Qeq_bool (videoFramerate st) 0) eqn:E; [|reflexivity].
    apply Qeq_bool_iff in E.
    assert (L : Qle_bool (videoFramerate st) 0 = true)
      by (apply Qle_bool_iff; rewrite E; apply Qle_refl).
    congruence. }
  cbv zeta. cbn [handle userAction].
  rewrite Hs, Hd, Hf. cbn [isReady negb andb]. unfold toggleAnalysis.
  cbn [render r_isAnalysisRunning].
  destruct (isAnalysisRunning st) eqn:R; cbn;
    unfold mainActionDisabled in *; cbn; rewrite Hs, Hd, Hf; cbn;
    repeat split.
Qed.

Lemma X11_toggle_twice_witness :
  status loopRunning = Ready
  /\ mainActionDisabled loopRunning = false
  /\ Qle_bool (videoFramerate loopRunning) 0 = false
  /\ isAnalysisRunning
       (handle (FromUser ClickMainAction)
          (handle (FromUser ClickMainAction) loopRunning)) = true
  /\ posted (handle (FromUser ClickMainAction)
               (handle (FromUser ClickMainAction) loopRunning))
     = posted loopRunning ++ [PostInterrupt].
Proof.
  assert (S : status loopRunning = Ready) by reflexivity.
  assert (D : mainActionDisabled loopRunning = false) by reflexivity.
  assert (F : Qle_bool (videoFramerate loopRunning) 0 = false) by reflexivity.
  destruct (X11_toggle_twice loopRunning S D F) as (Hr & Hp & _).
  split; [exact S|]. split; [exact D|]. split; [exact F|].
  split; [rewrite Hr; reflexivity | exact Hp].
Defined.

(** ** Output buffers of the prompts *)

Lemma handle_keeps_buffers e st j :
  is_Some (outputs st !! j) -> is_Some (outputs (handle e st) !! j).
Proof.
  intros [prev Hj].
  assert (A : e <> FromUser (ClickClear j) ->
              is_Some (outputs (handle e st) !! j)).
  { intros He. destruct (handle_appends e st j prev He Hj) as [more ->].
    eexists; reflexivity. }
  destruct e as [w|a| |v]; try (apply A; discriminate).
  destruct a as [|s|f|fr| |i t|k]; try (apply A; discriminate).
  destruct (decide (k = j)) as [->|Hk]; [|apply A; congruence].
  cbn. destruct (isReady (status st)); [|exists prev; exact Hj].
  cbn. rewrite lookup_insert_eq. eexists; reflexivity.
Qed.

Lemma run_keeps_buffers evs : forall st j,
  is_Some (outputs st !! j) -> is_Some (outputs (run evs st) !! j).
Proof.
  induction evs as [|e evs IH]; intros st j H; [exact H|].
  cbn [run fold_left]. apply IH, handle_keeps_buffers, H.
Qed.

(** X12. No event removes an output buffer. In every run of the component
    the buffers of the two prompts exist, so an [update] message for a
    prompt always finds a buffer and appends its text to it: the
    ["undefined"] case of the concatenation does not arise for them. *)
Theorem X12_prompt_buffers_exist (evs : list Event) (i : N) (output : jsstring)
    (newTps : Q) :
  i = 0%N \/ i = 1%N ->
  let st := run evs initialState in
  exists prev,
    outputs st !! i = Some prev
    /\ outputs (handle (FromWorker (MessageEvent (MUpdate i output newTps))) st)
         !! i = Some (prev ++ output).
Proof.
  intros Hi. cbv zeta.
  assert (H : is_Some (outputs (run evs initialState) !! i)).
  { apply run_keeps_buffers. destruct Hi as [-> | ->]; eexists; reflexivity. }
  destruct H as [prev H]. exists prev. split; [exact H|].
  cbn. rewrite lookup_insert_eq, H. reflexivity.
Qed.

Lemma X12_prompt_buffers_exist_witness :
  (1%N = 0%N \/ 1%N = 1%N)
  /\ exists prev,
       outputs (run oneShot initialState) !! 1%N = Some prev
       /\ outputs
            (handle (FromWorker (MessageEvent (MUpdate 1 (str "Two.") 20)))
               (run oneShot initialState)) !! 1%N
          = Some (prev ++ str "Two.").
Proof.
  assert (H : 1%N = 0%N \/ 1%N = 1%N) by (right; reflexivity).
  split; [exact H|].
  exact (X12_prompt_buffers_exist oneShot 1%N (str "Two.") 20 H).
Defined.

(** ** Download progress *)

Lemma sameFile_true a b : sameFile a b = true <-> a = b.
Proof. unfold sameFile. apply bool_decide_eq_true. Qed.

Lemma mergeProgress_again item data :
  mergeProgress (mergeProgress item data) data = mergeProgress item data.
Proof.
  unfold mergeProgress. cbn.
  destruct (progress data), (total data); reflexivity.
Qed.

(** X13. A [progress] message keeps the rows of the progress list: their
    number, their order and their file names. A row of another file is
    left as it was; in a row of the reported file, a property that the
    message does not carry keeps its value. Handling the same message a
    second time changes nothing. *)
Theorem X13_progress_keeps_rows (r : Render) (data : ProgressItem) (st : Core) :
  let step s := onMessageReceived r (MProgress data) s in
  List.map file (progressItems (step st)) = List.map file (progressItems st)
  /\ Forall2 (fun old new =>
                (file old <> file data -> new = old)
                /\ (progress data = None -> progress new = progress old)
                /\ (total data = None -> total new = total old))
       (progressItems st) (progressItems (step st))
  /\ progressItems (step (step st)) = progressItems (step st).
Proof.
  cbn. induction (progressItems st) as [|item items (IH1 & IH2 & IH3)];
    [split; [reflexivity | split; [constructor | reflexivity]]|].
  cbn. destruct (sameFile (file item) (file data)) eqn:E.
  - pose proof E as E'. apply sameFile_true in E'. split; [|split].
    + rewrite IH1. cbn. f_equal. symmetry. exact E'.
    + constructor; [|exact IH2]. split; [intros H; contradiction|].
      cbn. split; intros ->; reflexivity.
    + cbn. rewrite (proj2 (sameFile_true _ _) eq_refl), IH3.
      rewrite mergeProgress_again. reflexivity.
  - split; [|split].
    + rewrite IH1. reflexivity.
    + constructor; [|exact IH2]. repeat split.
    + rewrite E, IH3. reflexivity.
Qed.

Lemma X13_progress_keeps_rows_witness :
  let rows := [configFile;
               {| file := str "model.onnx"; progress := Some 10%Q;
                  total := Some 200%Q |}] in
  let st := with_progressItems rows initialState in
  file configFile <> file halfWay
  /\ total halfWay = None
  /\ Forall2 (fun old new =>
                (file old <> file halfWay -> new = old)
                /\ (progress halfWay = None -> progress new = progress old)
                /\ (total halfWay = None -> total new = total old))
       rows
       (progressItems (onMessageReceived firstRender (MProgress halfWay) st))
  /\ List.map total
       (progressItems (onMessageReceived firstRender (MProgress halfWay) st))
     = [Some 100%Q; Some 200%Q].
Proof.
  cbv zeta.
  destruct (X13_progress_keeps_rows firstRender halfWay
              (with_progressItems
                 [configFile;
                  {| file := str "model.onnx"; progress := Some 10%Q;
                     total := Some 200%Q |}] initialState)) as (_ & H & _).
  split; [vm_compute; discriminate|]. split; [reflexivity|].
  split; [exact H | reflexivity].
Defined.

Lemma filter_sublist {A} (f : A -> bool) l : sublist (List.filter f l) l.
Proof.
  induction l as [|x l IH]; [constructor|]. cbn.
  destruct (f x); [apply sublist_skip | apply sublist_cons]; exact IH.
Qed.

(** X14. A [done] message removes the rows of its file and no other: no
    row of that file is left, and every row of another file is kept, in
    the order the rows had. *)
Theorem X14_done_removes (r : Render) (f : jsstring) (st : Core) :
  let st' := onMessageReceived r (MDone f) st in
  Forall (fun it => file it <> f) (progressItems st')
  /\ sublist (progressItems st') (progressItems st)
  /\ Forall (fun it => file it <> f -> In it (progressItems st'))
       (progressItems st).
Proof.
  cbv zeta. cbn [onMessageReceived progressItems with_progressItems].
  split; [|split].
  - apply List.Forall_forall. intros it Hit.
    apply List.filter_In in Hit as [_ Hit]. apply negb_true_iff in Hit.
    intros E. apply sameFile_true in E. congruence.
  - apply filter_sublist.
  - apply List.Forall_forall. intros it Hit Hf. apply List.filter_In.
    split; [exact Hit|]. apply negb_true_iff.
    destruct (sameFile (file it) f) eqn:E; [|reflexivity].
    apply sameFile_true in E. contradiction.
Qed.

(** X15. When no row of a file is listed, an [initiate] message for the
    file followed by its [done] message gives back the progress list as
    it was. *)
Theorem X15_initiate_done (r : Render) (item : ProgressItem) (st : Core) :
  Forall (fun it => file it <> file item) (progressItems st) ->
  progressItems (onMessageReceived r (MDone (file item))
                   (onMessageReceived r (MInitiate item) st))
  = progressItems st.
Proof.
  intros H. cbn [onMessageReceived progressItems with_progressItems].
  rewrite List.filter_app. cbn.
  assert (sameFile (file item) (file item) = true) as ->
    by (apply sameFile_true; reflexivity).
  cbn. rewrite app_nil_r.
  induction H as [|it items Hit _ IH]; [reflexivity|].
  cbn. destruct (sameFile (file it) (file item)) eqn:E.
  - apply sameFile_true in E. contradiction.
  - cbn. rewrite IH. reflexivity.
Qed.

Lemma X15_initiate_done_witness :
  Forall (fun it => file it <> file modelFile)
    (progressItems (onMessageReceived firstRender (MInitiate configFile)
                      initialState))
  /\ progressItems
       (onMessageReceived firstRender (MDone (file modelFile))
          (onMessageReceived firstRender (MInitiate modelFile)
             (onMessageReceived firstRender (MInitiate configFile)
                initialState)))
     = [configFile].
Proof.
  assert (H : Forall (fun it => file it <> file modelFile)
                (progressItems (onMessageReceived firstRender
                                  (MInitiate configFile) initialState))).
  { repeat constructor. vm_compute. discriminate. }
  split; [exact H|].
  rewrite (X15_initiate_done firstRender modelFile _ H). reflexivity.
Defined.

(** ** When a capture happens *)

Lemma forallb_existsb {A} (f : A -> bool) l :
  forallb f l = negb (existsb (fun x => negb (f x)) l).
Proof.
  induction l as [|x l IH]; [reflexivity|]. cbn. rewrite IH.
  destruct (f x); reflexivity.
Qed.

(** X16. A prompt passes the filter of [triggerInference] exactly when it
    is enabled and its text holds a code unit that is not white space: a
    prompt that is empty or made of blanks, tabs and line breaks only is
    never sent. *)
Theorem X16_eligible_nonblank (p : Prompt) :
  eligible p = true
  <-> enabled p = true /\ exists c, In c (text p) /\ isWhiteSpace c = false.
Proof.
  rewrite eligible_spec. split; intros [He H]; (split; [exact He|]).
  - destruct (forallb isWhiteSpace (text p)) eqn:F.
    + apply trim_nil in F. contradiction.
    + rewrite forallb_existsb in F. apply negb_false_iff in F.
      apply existsb_exists in F as (c & Hc & Hw). exists c.
      split; [exact Hc|]. apply negb_true_iff in Hw. exact Hw.
  - destruct H as (c & Hc & Hw). intros T. apply trim_nil in T.
    rewrite forallb_forall in T. specialize (T c Hc). congruence.
Qed.

Lemma X16_eligible_nonblank_witness :
  eligible blankPrompt = false
  /\ ~ (exists c, In c (text blankPrompt) /\ isWhiteSpace c = false).
Proof.
  assert (E : eligible blankPrompt = false) by reflexivity.
  split; [exact E|]. intros H.
  assert (eligible blankPrompt = true) as E'
    by (apply (X16_eligible_nonblank blankPrompt);
        split; [reflexivity | exact H]).
  rewrite E in E'. discriminate E'.
Defined.

Lemma dispatched_changes q qs st : dispatched q qs st <> st.
Proof.
  intros H. apply (f_equal (fun s => length (posted s))) in H. cbn in H.
  rewrite length_app in H. cbn in H. lia.
Qed.

(** X17. A call of [triggerInference] changes the state exactly when the
    busy flag is clear, [captureFrame] yields a non-empty image and some
    prompt of the closure is eligible; in every other case it is a silent
    no-op. When it acts, it sets the busy flag and posts one [generate]
    message. *)
Theorem X17_trigger_acts_iff (r : Render) (st : Core) :
  (triggerInference r st <> st
   <-> isWorkerBusy st = false
       /\ (exists image, captureFrame st = Some image /\ truthy image = true)
       /\ exists p, In p (r_prompts r) /\ eligible p = true)
  /\ (triggerInference r st <> st ->
      isWorkerBusy (triggerInference r st) = true
      /\ length (posted (triggerInference r st)) = S (length (posted st))).
Proof.
  split.
  - split.
    + intros H. destruct (triggerInference_cases r st)
        as [E | (B & image & q & qs & C & T & E & _)]; [contradiction|].
      split; [exact B|]. split; [exists image; split; assumption|].
      assert (Hq : In q (buildRequests image (r_prompts r)))
        by (rewrite E; left; reflexivity).
      unfold buildRequests in Hq. apply in_map_iff in Hq as (p & _ & Hp).
      apply List.filter_In in Hp. exists p. exact Hp.
    + intros (B & (image & C & T) & (p & Hp & He)).
      destruct (buildRequests image (r_prompts r)) as [|q qs] eqn:E.
      * exfalso.
        assert (Hq : In (requestOf image p)
                       (buildRequests image (r_prompts r))).
        { unfold buildRequests. apply in_map, List.filter_In.
          split; assumption. }
        rewrite E in Hq. destruct Hq.
      * rewrite (triggerInference_capture r st image q qs B C T E).
        apply dispatched_changes.
  - intros H. destruct (triggerInference_cases r st)
      as [E | (B & image & q & qs & C & T & E & ->)]; [contradiction|].
    split; [reflexivity|]. cbn. rewrite length_app. cbn. lia.
Qed.

Lemma X17_trigger_acts_iff_witness :
  triggerInference (render twoPrompts) twoPrompts <> twoPrompts
  /\ isWorkerBusy (triggerInference (render twoPrompts) twoPrompts) = true.
Proof.
  destruct (X17_trigger_acts_iff (render twoPrompts) twoPrompts) as [Hiff Hact].
  assert (H : triggerInference (render twoPrompts) twoPrompts <> twoPrompts).
  { apply Hiff. split; [reflexivity|]. split.
    - exists (frameDataURL sampleVideo). split; reflexivity.
    - exists (List.hd blankPrompt (prompts twoPrompts)).
      split; [left; reflexivity | reflexivity]. }
  split; [exact H | exact (proj1 (Hact H))].
Defined.

(** ** The camera stream *)

Lemma orderly_changeDeps d st :
  Camera.suspended st = [] -> orderly st -> orderly (Camera.changeDeps d st).
Proof.
  intros Hs [Hl Hc]. rewrite Hs in Hc. unfold Camera.changeDeps.
  case_bool_decide as Hd; [split; [exact Hl | rewrite Hs; exact Hc]|].
  assert (R : exists st',
             st' = (if Camera.hasCleanup st
                    then Camera.releaseStream st else st)
             /\ Camera.streamRef st' = None /\ Camera.live st' = ∅
             /\ Camera.suspended st' = []).
  { eexists. split; [reflexivity|].
    unfold Camera.releaseStream, Camera.held in *.
    destruct (Camera.streamRef st) as [s|] eqn:S.
    - assert (C : Camera.hasCleanup st = true) by (apply Hc; discriminate).
      rewrite C. cbn. rewrite Hl.
      repeat split; [apply difference_diag_L | exact Hs].
    - destruct (Camera.hasCleanup st); repeat split; assumption. }
  destruct R as (st' & <- & S' & L' & Q').
  unfold Camera.effectBody. cbn [Camera.deps Camera.with_deps].
  destruct (negb (Camera.cameraReady d)).
  - unfold Camera.releaseStream. cbn. rewrite S'. cbn.
    unfold orderly, Camera.held.
    cbn. rewrite S', L', Q'. split; [reflexivity | congruence].
  - unfold orderly, Camera.held. cbn. rewrite S', L', Q'. cbn.
    repeat split.
Qed.

Lemma orderly_suspended st k x :
  orderly st -> Camera.suspended st !! k = Some x ->
  k = 0 /\ Camera.suspended st = [x].
Proof.
  intros [_ Hc] Hk.
  destruct (Camera.suspended st) as [|y [|z l]]; [discriminate Hk | |].
  - destruct k; [|discriminate Hk]. cbn in Hk. split; congruence.
  - destruct y; contradiction.
Qed.

Lemma orderly_step e st :
  Camera.interrupts e st = false -> orderly st -> orderly (Camera.handle e st).
Proof.
  intros Hi Ho.
  assert (Calm : forall d, Camera.suspended st = [] ->
                           orderly (Camera.changeDeps d st))
    by (intros d Q; apply orderly_changeDeps; assumption).
  destruct e as [s|src|dev|k stream|k|k devices|k]; cbn [Camera.handle];
    try (apply Calm; cbn in Hi; apply negb_false_iff in Hi;
         apply bool_decide_eq_true in Hi; exact Hi);
    destruct (Camera.suspended st !! k) as [[d|d s]|] eqn:K; try exact Ho;
    destruct (orderly_suspended st k _ Ho K) as [-> Q];
    destruct Ho as [Hl Hc]; rewrite Q in Hc; destruct Hc as [S C];
    unfold Camera.held in Hl; rewrite S in Hl.
  - (* getUserMedia resolved *)
    unfold orderly, Camera.held. cbn. rewrite Q, Hl. cbn.
    split; [apply union_empty_r_L | split; [reflexivity | exact C]].
  - (* getUserMedia rejected *)
    unfold orderly, Camera.held. cbn. rewrite Q, S. cbn.
    split; [exact Hl | congruence].
  - (* enumerateDevices resolved *)
    unfold Camera.afterDevices.
    set (st1 := Camera.with_cameras _ _).
    assert (O1 : orderly st1).
    { unfold orderly, Camera.held. cbn. rewrite Q, S. cbn.
      split; [exact Hl | intros _; exact C]. }
    assert (Q1 : Camera.suspended st1 = []) by (cbn; rewrite Q; reflexivity).
    destruct (negb (truthy (Camera.d_selectedCamera d))); [|exact O1].
    destruct (List.filter Camera.isVideoInput devices) as [|first ?];
      [exact O1|].
    destruct (Camera.videoTracks s) as [|active ?]; [exact O1|].
    destruct (truthyOpt active); apply orderly_changeDeps; assumption.
  - (* enumerateDevices rejected *)
    unfold orderly, Camera.held. cbn. rewrite Q, S. cbn.
    split; [exact Hl | intros _; exact C].
Qed.

(** X18. In a run in which every call of [setupCamera] has finished
    before the next change of [status], [inputSource] or [selectedCamera],
    the cameras that are on are exactly the one stream [streamRef] holds,
    if any: at no time are two streams live, no stream is live without
    being held, and at most one call of [setupCamera] is in suspension. *)
Theorem X18_one_live_stream (evs : list Camera.Event) :
  Camera.settled evs Camera.mounted = true ->
  let st := Camera.run evs Camera.mounted in
  Camera.live st = Camera.held st
  /\ size (Camera.live st) <= 1
  /\ length (Camera.suspended st) <= 1.
Proof.
  assert (G : forall evs st, orderly st -> Camera.settled evs st = true ->
                             orderly (Camera.run evs st)).
  { clear evs. induction evs as [|e evs IH]; intros st Ho Hs; [exact Ho|].
    cbn in Hs. apply andb_true_iff in Hs as [He Hs].
    apply negb_true_iff in He. cbn [Camera.run fold_left].
    apply IH; [apply orderly_step; assumption | exact Hs]. }
  intros Hs. cbv zeta.
  destruct (G evs Camera.mounted) as [Hl Hc]; [|exact Hs|].
  { split; [reflexivity | cbn; congruence]. }
  split; [exact Hl|]. split.
  - rewrite Hl. unfold Camera.held.
    destruct (Camera.streamRef _);
      [rewrite size_singleton | rewrite size_empty]; lia.
  - destruct (Camera.suspended _) as [|? [|? ?]]; cbn; try lia.
    destruct s; contradiction.
Qed.

Lemma X18_one_live_stream_witness :
  Camera.settled firstGrant Camera.mounted = true
  /\ Camera.live (Camera.run firstGrant Camera.mounted)
     = Camera.held (Camera.run firstGrant Camera.mounted)
  /\ size (Camera.live (Camera.run firstGrant Camera.mounted)) <= 1.
Proof.
  assert (H : Camera.settled firstGrant Camera.mounted = true)
    by (vm_compute; reflexivity).
  split; [exact H|].
  destruct (X18_one_live_stream firstGrant H) as (Hl & Hs & _).
  split; [exact Hl | exact Hs].
Defined.

(** X19. A change of [status], [inputSource] or [selectedCamera] that
    leads away from the ready camera, or that follows a run of the effect
    which set the camera up, releases the stream held: [streamRef] is
    cleared and the stream it held is no longer live. Only then, and only
    for the ready camera, is [getUserMedia] called again. *)
Theorem X19_release_on_change (d : Camera.Deps) (st : Camera.Source) :
  d <> Camera.deps st ->
  Camera.cameraReady d = false \/ Camera.hasCleanup st = true ->
  let st' := Camera.changeDeps d st in
  Camera.streamRef st' = None
  /\ (forall stream, Camera.streamRef st = Some stream ->
                     Camera.streamId stream ∉ Camera.live st')
  /\ Camera.suspended st'
     = Camera.suspended st
       ++ (if Camera.cameraReady d then [Camera.AwaitUserMedia d] else []).
Proof.
  intros Hd Hc. cbv zeta. unfold Camera.changeDeps.
  rewrite bool_decide_eq_false_2 by exact Hd.
  unfold Camera.effectBody, Camera.releaseStream.
  destruct st as [d0 cams err sref lv hc susp]. cbn in Hc |- *.
  destruct (Camera.cameraReady d) eqn:R; cbn [negb].
  - destruct Hc as [Hc|Hc]; [discriminate Hc|]. subst hc.
    destruct sref as [s|]; cbn; (split; [reflexivity|]);
      (split; [|reflexivity]).
    + intros stream [= <-]. apply not_elem_of_difference. right.
      apply elem_of_singleton. reflexivity.
    + intros stream [=].
  - destruct hc, sref as [s|]; cbn; rewrite ?app_nil_r;
      (split; [reflexivity|]); (split; [|reflexivity]);
      intros stream [= <-]; apply not_elem_of_difference; right;
      apply elem_of_singleton; reflexivity.
Qed.

Lemma X19_release_on_change_witness :
  backCamera <> Camera.deps cameraHeld
  /\ Camera.hasCleanup cameraHeld = true
  /\ Camera.streamRef cameraHeld = Some frontCameraExact
  /\ Camera.streamRef (Camera.changeDeps backCamera cameraHeld) = None
  /\ (Camera.streamId frontCameraExact
       ∉ Camera.live (Camera.changeDeps backCamera cameraHeld))
  /\ Camera.suspended (Camera.changeDeps backCamera cameraHeld)
     = [Camera.AwaitUserMedia backCamera].
Proof.
  assert (D : backCamera <> Camera.deps cameraHeld)
    by (vm_compute; discriminate).
  assert (C : Camera.hasCleanup cameraHeld = true) by (vm_compute; reflexivity).
  assert (S : Camera.streamRef cameraHeld = Some frontCameraExact)
    by (vm_compute; reflexivity).
  destruct (X19_release_on_change backCamera cameraHeld D (or_intror C))
    as (Hr & Hl & Hs).
  split; [exact D|]. split; [exact C|]. split; [exact S|].
  split; [exact Hr|]. split; [exact (Hl _ S)|].
  rewrite Hs. vm_compute. reflexivity.
Defined.

(** X20. The first grant opens the camera twice. When the call of
    [setupCamera] made without a selected camera learns the devices, and
    the stream it holds reports the device of its video track, that device
    becomes the selected camera; this re-runs the effect, which stops the
    stream just obtained and calls [getUserMedia] again for that device. *)
Theorem X20_first_grant_reopens (st : Camera.Source) (d : Camera.Deps)
    (stream : Camera.MediaStream) (devices : list Camera.MediaDevice)
    (active : jsstring) :
  Camera.suspended st = [Camera.AwaitDevices d stream] ->
  Camera.deps st = d ->
  Camera.d_selectedCamera d = [] ->
  Camera.cameraReady d = true ->
  Camera.hasCleanup st = true ->
  Camera.streamRef st = Some stream ->
  List.filter Camera.isVideoInput devices <> [] ->
  head (Camera.videoTracks stream) = Some (Some active) ->
  truthy active = true ->
  let st' := Camera.handle (Camera.DevicesResolved 0 devices) st in
  Camera.cameras st' = List.filter Camera.isVideoInput devices
  /\ Camera.d_selectedCamera (Camera.deps st') = active
  /\ Camera.streamRef st' = None
  /\ (Camera.streamId stream ∉ Camera.live st')
  /\ Camera.suspended st' = [Camera.AwaitUserMedia (Camera.deps st')].
Proof.
  intros Q D Sel R C S V T A. cbv zeta.
  destruct st as [d0 cams err sref lv hc susp]. cbn in Q, D, C, S. subst.
  unfold Camera.handle. cbn [Camera.suspended lookup list_lookup].
  unfold Camera.afterDevices. rewrite Sel. cbn [truthy negb].
  destruct (List.filter Camera.isVideoInput devices) as [|first rest] eqn:F;
    [contradiction|].
  destruct (Camera.videoTracks stream) as [|t ts]; [discriminate T|].
  cbn in T. injection T as ->. cbn [truthyOpt toStringOpt]. rewrite A.
  unfold Camera.setSelectedCamera, Camera.changeDeps. cbn.
  rewrite bool_decide_eq_false_2.
  2:{ intros E. apply (f_equal Camera.d_selectedCamera) in E. cbn in E.
      rewrite Sel in E. subst active. discriminate A. }
  unfold Camera.effectBody, Camera.releaseStream, Camera.cameraReady in *.
  cbn. rewrite R. cbn.
  repeat split. apply not_elem_of_difference. right.
  apply elem_of_singleton. reflexivity.
Qed.

Lemma X20_first_grant_reopens_witness :
  let st := Camera.run [ Camera.SetStatus Ready;
                         Camera.UserMediaResolved 0 frontCamera ]
              Camera.mounted in
  Camera.suspended st = [Camera.AwaitDevices (Camera.deps st) frontCamera]
  /\ Camera.streamRef st = Some frontCamera
  /\ Camera.d_selectedCamera
       (Camera.deps (Camera.handle (Camera.DevicesResolved 0 twoCameras) st))
     = str "cam-front"
  /\ Camera.streamRef (Camera.handle (Camera.DevicesResolved 0 twoCameras) st)
     = None.
Proof.
  cbv zeta.
  set (st := Camera.run _ Camera.mounted).
  assert (Q : Camera.suspended st
              = [Camera.AwaitDevices (Camera.deps st) frontCamera])
    by (vm_compute; reflexivity).
  assert (S : Camera.streamRef st = Some frontCamera)
    by (vm_compute; reflexivity).
  assert (V : List.filter Camera.isVideoInput twoCameras <> [])
    by (vm_compute; discriminate).
  destruct (X20_first_grant_reopens st (Camera.deps st) frontCamera twoCameras
              (str "cam-front") Q eq_refl eq_refl eq_refl eq_refl S V
              eq_refl eq_refl) as (_ & Hsel & Hr & _).
  split; [exact Q|]. split; [exact S|]. split; [exact Hsel | exact Hr].
Defined.

(** ** The analysis effect *)

(** X21. A call made by the analysis effect changes the state exactly
    when the loop runs, the status is ["ready"], the frame rate is
    positive or [-1], and [triggerInference] itself acts: in manual mode
    (rate [0]), with the loop stopped or before the model is ready the
    effect never captures a frame. *)
Theorem X21_tick_acts_iff (st : Core) :
  analysisTick st <> st
  <-> isAnalysisRunning st = true
      /\ status st = Ready
      /\ (Qlt 0 (videoFramerate st) \/ Qeq (videoFramerate st) (-1))
      /\ triggerInference (render st) st <> st.
Proof.
  unfold analysisTick.
  destruct (isAnalysisRunning st); cbn [negb orb];
    [|split; [intros H; contradiction | intros (H & _); discriminate H]].
  destruct (status st) eqn:S; cbn [isReady negb];
    try (split; [intros H; contradiction | intros (_ & H & _); discriminate H]).
  destruct (Qle_bool (videoFramerate st) 0) eqn:L; cbn [negb].
  - apply Qle_bool_iff in L.
    destruct (Qeq_bool (videoFramerate st) (-1)) eqn:E.
    + apply Qeq_bool_iff in E. split.
      * intros H. repeat split; [right; exact E | exact H].
      * intros (_ & _ & _ & H). exact H.
    + split; [intros H; contradiction|]. intros (_ & _ & [H|H] & _).
      * exfalso. apply (Qlt_not_le _ _ H L).
      * apply Qeq_bool_iff in H. congruence.
  - split.
    + intros H. repeat split; [|exact H]. left. apply Qnot_le_lt.
      intros H'. apply Qle_bool_iff in H'. congruence.
    + intros (_ & _ & _ & H). exact H.
Qed.

Lemma X21_tick_acts_iff_witness :
  analysisTick twoPrompts = twoPrompts
  /\ ~ (isAnalysisRunning twoPrompts = true
        /\ status twoPrompts = Ready
        /\ (Qlt 0 (videoFramerate twoPrompts)
            \/ Qeq (videoFramerate twoPrompts) (-1))
        /\ triggerInference (render twoPrompts) twoPrompts <> twoPrompts).
Proof.
  assert (E : analysisTick twoPrompts = twoPrompts) by reflexivity.
  split; [exact E|]. intros H.
  apply (proj2 (X21_tick_acts_iff twoPrompts)) in H. contradiction.
Defined.

Lemma handleFileUpload_current f st :
  nonEmptyUrl f ->
  (forall url, VideoFile.videoFileUrl st = Some url -> url <> []) ->
  VideoFile.liveUrls st = VideoFile.current st ->
  VideoFile.liveUrls (VideoFile.handleFileUpload f st)
  = VideoFile.current (VideoFile.handleFileUpload f st)
  /\ (forall url,
        VideoFile.videoFileUrl (VideoFile.handleFileUpload f st) = Some url ->
        url <> []).
Proof.
  intros Hf Hne Hl. destruct f as [url|]; [|split; assumption].
  cbn in Hf. unfold VideoFile.handleFileUpload, VideoFile.revokeIfSet,
    VideoFile.current in *.
  destruct (VideoFile.videoFileUrl st) as [old|] eqn:O; cbn.
  - assert (T : truthy old = true)
      by (destruct old;
          [exfalso; apply (Hne [] eq_refl); reflexivity | reflexivity]).
    rewrite T. cbn. rewrite Hl. split.
    + rewrite difference_diag_L. apply union_empty_r_L.
    + intros u [= <-]. exact Hf.
  - rewrite Hl. split; [apply union_empty_r_L | intros u [= <-]; exact Hf].
Qed.

(** X22. Whatever files are chosen, one after the other, exactly the
    object URL of the last one is live: each upload revokes the URL of
    the file before. The cleanup at unmount revokes nothing, so the last
    URL stays live when the component is removed. (Object URLs are never
    the empty string.) *)
Theorem X22_one_object_url (files : list (option jsstring)) :
  Forall nonEmptyUrl files ->
  let st := VideoFile.uploads files VideoFile.initial in
  VideoFile.liveUrls st = VideoFile.current st
  /\ size (VideoFile.liveUrls st) <= 1
  /\ VideoFile.unmountCleanup st = st.
Proof.
  intros H. cbv zeta.
  assert (G : forall files st,
             Forall nonEmptyUrl files ->
             (forall url, VideoFile.videoFileUrl st = Some url -> url <> []) ->
             VideoFile.liveUrls st = VideoFile.current st ->
             VideoFile.liveUrls (VideoFile.uploads files st)
             = VideoFile.current (VideoFile.uploads files st)).
  { clear. induction files as [|f files IH]; intros st Hf Hne Hl; [exact Hl|].
    inversion Hf as [|? ? Hf1 Hf2]; subst. cbn [VideoFile.uploads fold_left].
    destruct (handleFileUpload_current f st Hf1 Hne Hl) as [Hl' Hne'].
    apply IH; assumption. }
  assert (L := G files VideoFile.initial H (fun url E => ltac:(discriminate E))
                 eq_refl).
  split; [exact L|]. split; [|reflexivity].
  rewrite L. unfold VideoFile.current.
  destruct (VideoFile.videoFileUrl _);
    [rewrite size_singleton | rewrite size_empty]; lia.
Qed.

Lemma X22_one_object_url_witness :
  Forall nonEmptyUrl twoUploads
  /\ VideoFile.liveUrls (VideoFile.uploads twoUploads VideoFile.initial)
     = {[str "blob:2"]}.
Proof.
  assert (H : Forall nonEmptyUrl twoUploads).
  { repeat constructor; discriminate. }
  split; [exact H|].
  destruct (X22_one_object_url twoUploads H) as (-> & _). reflexivity.
Defined.

(** ** Single flight in the narrow sense *)

Lemma handle_busy_cleared e st :
  isWorkerBusy (handle e st) = false ->
  isWorkerBusy st = false \/ reportsEnd e = true.
Proof.
  assert (T : forall r, isWorkerBusy (triggerInference r st) = false ->
                        isWorkerBusy st = false).
  { intros r. destruct (triggerInference_cases r st)
      as [-> | (_ & image & q & qs & _ & _ & _ & ->)];
      [trivial | discriminate]. }
  destruct e as [[m|]|a| |v]; cbn [handle workerEvent].
  - destruct m as [d|it|it|f| |i|i o t|i|d|]; cbn [onMessageReceived];
      first [ right; reflexivity | left; assumption ].
  - right; reflexivity.
  - intros H. left. revert H.
    destruct a as [|s|f|fr| |i t|k]; cbn [userAction];
      unfold handleFileUpload, toggleAnalysis; split_tests;
      first [ apply T | trivial ].
  - intros H. left. revert H. unfold analysisTick. split_tests;
      first [ apply T | trivial ].
  - left; assumption.
Qed.

Lemma newlyPosted_same st st' :
  posted st' = posted st -> newlyPosted st st' = [].
Proof. intros H. unfold newlyPosted. rewrite H. apply drop_all. Qed.

Lemma newlyPosted_one st st' m :
  posted st' = posted st ++ [m] -> newlyPosted st st' = [m].
Proof. intros H. unfold newlyPosted. rewrite H. apply drop_app_length. Qed.

Lemma narrowFlight_step e st ids :
  wellReported e ids = true -> narrowFlight st ids ->
  narrowFlight (handle e st)
    (reportedOn e ids ++ dispatchedIds (newlyPosted st (handle e st))).
Proof.
  intros W [Hl Hb]. unfold narrowFlight.
  pose proof (handle_busy_cleared e st) as B.
  destruct (handle_Posting e st)
    as [Hp _ | He _ Hp _ | He _ _ Hp _ | d He Hp _
        | image q qs He Bf _ _ Hp _ Bt | i q qs He _ Hp _ Bt ].
  - rewrite (newlyPosted_same _ _ Hp), app_nil_r.
    destruct e as [[m|]|a| |v]; try discriminate W;
      try (cbn; split; [exact Hl | intros H; destruct (B H) as [H'|H'];
                                   [exact (Hb H') | discriminate H']]).
    destruct m as [d|it|it|f| |i|i o t|i|d|];
      try (cbn; split; [exact Hl | intros H; destruct (B H) as [H'|H'];
                                   [exact (Hb H') | discriminate H']]).
    + cbn in W. apply bool_decide_eq_true in W. subst ids. cbn.
      rewrite N.eqb_refl. split; [cbn; lia | reflexivity].
    + cbn. split; [cbn; lia | reflexivity].
  - subst e. rewrite (newlyPosted_one _ _ _ Hp). cbn. rewrite app_nil_r.
    split; [exact Hl|]. intros H. destruct (B H) as [H'|H'];
      [exact (Hb H') | discriminate H'].
  - subst e. rewrite (newlyPosted_one _ _ _ Hp). cbn. rewrite app_nil_r.
    split; [exact Hl|]. intros H. destruct (B H) as [H'|H'];
      [exact (Hb H') | discriminate H'].
  - subst e. rewrite (newlyPosted_same _ _ Hp). cbn.
    split; [lia | reflexivity].
  - rewrite (newlyPosted_one _ _ _ Hp), (Hb Bf).
    split; [|intros H; rewrite Bt in H; discriminate H].
    destruct He as [-> | ->]; cbn; lia.
  - rewrite (newlyPosted_one _ _ _ Hp).
    split; [|intros H; rewrite Bt in H; discriminate H].
    subst e. cbn in W. apply bool_decide_eq_true in W. subst ids.
    cbn. rewrite N.eqb_refl. cbn. lia.
Qed.

(** X23. When the worker's [error] event does not occur and every
    [complete] message carries the identifier of the one request in
    flight, at most one request is in flight also in the narrow sense:
    no [generate] message is posted before the worker has reported, by a
    [complete] message with its identifier or by an [error] message, on
    the request posted before. *)
Theorem X23_narrow_single_flight (evs : list Event) :
  answering evs initialState [] = true ->
  length (awaited evs initialState []) <= 1.
Proof.
  assert (G : forall evs st ids,
             narrowFlight st ids -> answering evs st ids = true ->
             length (awaited evs st ids) <= 1).
  { clear evs. induction evs as [|e evs IH]; intros st ids J A.
    - exact (proj1 J).
    - cbn in A. apply andb_true_iff in A as [W A]. cbn [awaited].
      apply IH; [apply narrowFlight_step; assumption | exact A]. }
  apply G. split; [cbn; lia | reflexivity].
Qed.

Lemma X23_narrow_single_flight_witness :
  answering answeredTwice initialState [] = true
  /\ awaited answeredTwice initialState [] = [0%N]
  /\ length (awaited answeredTwice initialState []) <= 1.
Proof.
  assert (A : answering answeredTwice initialState [] = true)
    by (vm_compute; reflexivity).
  split; [exact A|]. split; [vm_compute; reflexivity|].
  exact (X23_narrow_single_flight answeredTwice A).
Defined.
